(** * A shallow embedding of the model-server backend worker

    The development follows three source files of the repository:

    - [ts/model_service_worker.py]: the socket worker, its [load_model]
      and [handle_connection] methods and the [__main__] block (module
      [Worker]);
    - [ts/handler_utils/cache/utils.py]: [BackendCache] (module
      [CacheUtils]);
    - [test/pytest/test_streaming_inference.py]: the continuous-batching
      scenario, whose handler is described by the specification only
      (module [Streaming]).

    Python values that the code inspects are first-order data, exceptions
    are an explicit error monad, dictionaries are [gmap]s with string
    keys, the file system is a [gset] of paths, and a connection is the
    list of frames its peer sends together with the trace of reads and
    writes the worker performs on it. *)

From Stdlib Require Import ZArith List String Ascii Lia.
From Stdlib.Strings Require Import Byte.
From stdpp Require Import base option list gmap strings pretty.

Open Scope Z_scope.
Open Scope string_scope.
Open Scope list_scope.

(** ** Python values, exceptions and builtins *)

Module Py.

(** The exceptions the modelled code can raise or let through. *)
Inductive exn : Type :=
| MemoryError
| KeyError (key : string)
| IndexError
| AttributeError (attr : string)
| TypeError (what : string)
| ValueError (what : string)
| UnicodeDecodeError
| OSError (path : string)
| RuntimeError (msg : string)
| AssertionError
| SocketTimeout
| ExternalError (what : string).

(** A computation either returns or raises. *)
Inductive result (A : Type) : Type :=
| Ret (a : A)
| Raise (e : exn).
Arguments Ret {A} a.
Arguments Raise {A} e.

#[global] Instance result_ret : MRet result := @Ret.
#[global] Instance result_bind : MBind result :=
  fun A B f m => match m with Ret a => f a | Raise e => Raise e end.
#[global] Instance result_fmap : FMap result :=
  fun A B f m => match m with Ret a => Ret (f a) | Raise e => Raise e end.

#[global] Instance byte_eq_decision : EqDecision byte := Byte.byte_eq_dec.

(** [str] objects are kept as the UTF-8 encoding of their text, so that
    [+] and [format] are concatenation and [len(s) > 0] is non-emptiness. *)
Definition str := string.

(** The values found in a request dictionary. *)
Inductive pyval : Type :=
| PyNone
| PyBool (b : bool)
| PyInt (z : Z)
| PyBytes (b : list byte)
| PyStr (s : str).

(** Truth value testing, as [if v] and [bool(v)] perform it. *)
Definition truthy (v : pyval) : bool :=
  match v with
  | PyNone => false
  | PyBool b => b
  | PyInt z => negb (Z.eqb z 0)
  | PyBytes b => match b with [] => false | _ :: _ => true end
  | PyStr s => match s with EmptyString => false | String _ _ => true end
  end.

(** [d[k]] on a dictionary. *)
Definition getitem {V : Type} (d : gmap string V) (k : string) : result V :=
  match d !! k with
  | Some v => Ret v
  | None => Raise (KeyError k)
  end.

(** [k in d] on a dictionary. *)
Definition contains {V : Type} (d : gmap string V) (k : string) : bool :=
  match d !! k with Some _ => true | None => false end.

(** *** UTF-8 decoding *)

Definition in_range (lo hi : N) (b : byte) : bool :=
  let n := Byte.to_N b in ((lo <=? n) && (n <=? hi))%N.

Definition is_cont (b : byte) : bool := in_range 128 191 b.

(** Well-formed UTF-8 (no overlong forms, no surrogates, at most
    U+10FFFF), the inputs on which [bytes.decode("utf-8")] succeeds. *)
Fixpoint utf8_valid (bs : list byte) : bool :=
  match bs with
  | [] => true
  | b0 :: r0 =>
      if in_range 0 127 b0 then utf8_valid r0
      else if in_range 194 223 b0 then
        match r0 with
        | b1 :: r1 => is_cont b1 && utf8_valid r1
        | _ => false
        end
      else if in_range 224 239 b0 then
        match r0 with
        | b1 :: b2 :: r2 =>
            (if in_range 224 224 b0 then in_range 160 191 b1
             else if in_range 237 237 b0 then in_range 128 159 b1
             else is_cont b1)
            && is_cont b2 && utf8_valid r2
        | _ => false
        end
      else if in_range 240 244 b0 then
        match r0 with
        | b1 :: b2 :: b3 :: r3 =>
            (if in_range 240 240 b0 then in_range 144 191 b1
             else if in_range 244 244 b0 then in_range 128 143 b1
             else is_cont b1)
            && is_cont b2 && is_cont b3 && utf8_valid r3
        | _ => false
        end
      else false
  end.

(** [v.decode("utf-8")]: only [bytes] has the method. *)
Definition decode_utf8 (v : pyval) : result str :=
  match v with
  | PyBytes b =>
      if utf8_valid b then Ret (string_of_list_byte b)
      else Raise UnicodeDecodeError
  | _ => Raise (AttributeError "decode")
  end.

(** *** [int(...)] and [str(...)] on integers *)

Definition is_digit (a : ascii) : bool :=
  let n := N_of_ascii a in ((48 <=? n) && (n <=? 57))%N.

Definition digit_val (a : ascii) : Z := Z.of_N (N_of_ascii a) - 48.

(** White space that [int] skips around a literal, in [bytes] and in
    the ASCII part of a [str]: space and U+0009..U+000D. *)
Definition is_space (a : ascii) : bool :=
  let n := N_of_ascii a in ((n =? 32) || ((9 <=? n) && (n <=? 13)))%N.

(** White space that [str.strip] removes: the separators
    U+001C..U+001F too, which [int] does not skip. *)
Definition is_space_str (a : ascii) : bool :=
  let n := N_of_ascii a in is_space a || ((28 <=? n) && (n <=? 31))%N.

(** Decimal digits, single underscores allowed between two digits. *)
Fixpoint digits_acc (acc : Z) (after_digit : bool) (l : list ascii) : option Z :=
  match l with
  | [] => if after_digit then Some acc else None
  | c :: l' =>
      if is_digit c then digits_acc (10 * acc + digit_val c) true l'
      else if Ascii.eqb c "_" && after_digit then digits_acc acc false l'
      else None
  end.

Definition signed_digits (l : list ascii) : option Z :=
  match l with
  | c :: l' =>
      if Ascii.eqb c "-" then Z.opp <$> digits_acc 0 false l'
      else if Ascii.eqb c "+" then digits_acc 0 false l'
      else digits_acc 0 false l
  | [] => None
  end.

Fixpoint skip (sp : ascii -> bool) (l : list ascii) : list ascii :=
  match l with
  | c :: l' => if sp c then skip sp l' else l
  | [] => []
  end.

(** Both ends stripped of the characters [sp] accepts. *)
Definition strip_with (sp : ascii -> bool) (l : list ascii) : list ascii :=
  rev (skip sp (rev (skip sp l))).

Definition int_of_text (sp : ascii -> bool) (s : string) : result Z :=
  match signed_digits (strip_with sp (list_ascii_of_string s)) with
  | Some z => Ret z
  | None => Raise (ValueError "invalid literal for int() with base 10")
  end.

(** [int(v)]. Digits and spaces outside ASCII, which [int] also accepts
    in a [str], are not recognised by this model, and a literal may have
    any number of digits (the interpreter refuses more than
    [sys.get_int_max_str_digits()] of them, 4300 unless configured). *)
Definition py_int (v : pyval) : result Z :=
  match v with
  | PyInt z => Ret z
  | PyBool b => Ret (if b then 1 else 0)
  | PyBytes b => int_of_text is_space (string_of_list_byte b)
  | PyStr s => int_of_text is_space s
  | PyNone => Raise (TypeError "int() argument must be a string, a bytes-like object or a real number")
  end.

(** [str(z)] for an integer. *)
Definition py_str (z : Z) : str := pretty z.

(** *** String methods *)

(** The text before and after the last [sep], if there is one. *)
Fixpoint split_last (sep : ascii) (l : list ascii)
    : option (list ascii * list ascii) :=
  match l with
  | [] => None
  | c :: l' =>
      match split_last sep l' with
      | Some (h, t) => Some (c :: h, t)
      | None => if Ascii.eqb c sep then Some ([], l') else None
      end
  end.

(** [s.rsplit(sep, 1)] for a one-character separator. *)
Definition rsplit1 (sep : ascii) (s : str) : list str :=
  match split_last sep (list_ascii_of_string s) with
  | Some (h, t) => [string_of_list_ascii h; string_of_list_ascii t]
  | None => [s]
  end.

(** [s.strip()], on the ASCII white space. *)
Definition strip (s : str) : str :=
  string_of_list_ascii (strip_with is_space_str (list_ascii_of_string s)).

(** [sub in s] on strings. *)
Definition str_contains (sub s : str) : bool :=
  match index 0 sub s with Some _ => true | None => false end.

(** [assert v]. *)
Definition py_assert (v : pyval) : result unit :=
  if truthy v then Ret tt else Raise AssertionError.

(** *** The file system

    The set of existing paths; each is a plain file its owner may
    remove, so [os.remove] fails on a missing path only. *)

Definition os_path_exists (fs : gset string) (path : string) : bool :=
  bool_decide (path ∈ fs).

Definition os_remove (fs : gset string) (path : string)
    : gset string * result unit :=
  if bool_decide (path ∈ fs) then (fs ∖ {[path]}, Ret tt)
  else (fs, Raise (OSError path)).

End Py.

Import Py.

(** ** The worker: [ts/model_service_worker.py] *)

Module Worker.

(** The arguments [load_model] hands to [model_loader.load], in the order
    of the call (the metrics cache, which the loader only stores, is left
    out). *)
Record load_args : Type := LoadArgs {
  model_name : str;
  model_dir : str;
  handler : option str;
  gpu : option Z;
  batch_size : option Z;
  envelope : option str;
  limit_max_image_pixels : bool
}.

(** What [retrieve_msg] returns next to the command tag: the field
    dictionary of a load request, or the payload of a predict request,
    which only the loaded service interprets. *)
Inductive message (Payload : Type) : Type :=
| LoadRequest (fields : gmap string pyval)
| PredictRequest (payload : Payload).
Arguments LoadRequest {Payload} fields.
Arguments PredictRequest {Payload} payload.

(** What the worker does on a connection, in order. *)
Inductive event (Payload : Type) : Type :=
| Recv (cmd : list byte) (msg : message Payload)
| Send (resp : list byte).
Arguments Recv {Payload} cmd msg.
Arguments Send {Payload} resp.

(** How [handle_connection] stops: its loop has no exit, so it either
    raises or finds that the peer sends nothing more. *)
Inductive ending : Type :=
| Raised (e : exn)
| NoMoreFrames.

Definition cmd_I : list byte := [x49].
Definition cmd_L : list byte := [x4c].

Section Collaborators.

(** The loaded service, the request payload, and the three capabilities
    the worker imports: [ModelLoaderFactory.get_model_loader().load],
    the service's [predict] and [create_load_model_response]. *)
Context {Service Payload : Type}.
Variable model_loader_load : load_args -> result Service.
Variable predict : Service -> message Payload -> result (list byte).
Variable create_load_model_response : Z -> str -> list byte.

(** [load_request[k].decode("utf-8") if k in load_request else None] and
    its [int] sibling. *)
Definition optional_field {A : Type} (conv : pyval -> result A)
    (req : gmap string pyval) (k : string) : result (option A) :=
  if contains req k then Some <$> (getitem req k ≫= conv) else Ret None.

(** The body of the [try] block of [load_model], up to the loaded
    service and the decoded model name. *)
Definition load_model_try (load_model_request : gmap string pyval)
    : result (Service * str) :=
  model_dir ← getitem load_model_request "modelPath" ≫= decode_utf8;
  model_name ← getitem load_model_request "modelName" ≫= decode_utf8;
  h ← getitem load_model_request "handler";
  handler ← (if truthy h then Some <$> decode_utf8 h else Ret None);
  envelope ← optional_field decode_utf8 load_model_request "envelope";
  let envelope :=
    match envelope with
    | Some (String c e) => Some (String c e)
    | _ => None
    end in
  batch_size ← optional_field py_int load_model_request "batchSize";
  gpu ← optional_field py_int load_model_request "gpu";
  limit_max_image_pixels ←
    (if contains load_model_request "limitMaxImagePixels"
     then truthy <$> getitem load_model_request "limitMaxImagePixels"
     else Ret true);
  service ← model_loader_load
    (LoadArgs model_name model_dir handler gpu batch_size envelope
              limit_max_image_pixels);
  Ret (service, model_name).

(** [load_model]: the service (or [None]), the message and the code. *)
Definition load_model (load_model_request : gmap string pyval)
    : result (option Service * str * Z) :=
  match load_model_try load_model_request with
  | Ret (service, model_name) =>
      Ret (Some service, "loaded model " +:+ model_name, 200)
  | Raise MemoryError => Ret (None, "System out of memory", 507)
  | Raise e => Raise e
  end.

(** One iteration of the [while True] of [handle_connection] after
    [retrieve_msg] returned [(cmd, msg)]: the responses written with
    [sendall], then the value of [service] for the next iteration or
    the exception that leaves the loop. Subscripting a message that is
    not a dictionary is a [TypeError]. *)
Definition dispatch (service : option Service) (cmd : list byte)
    (msg : message Payload) : list (list byte) * result (option Service) :=
  if decide (cmd = cmd_I) then
    match service with
    | None => ([], Raise (AttributeError "predict"))
    | Some s =>
        match predict s msg with
        | Ret resp => ([resp], Ret service)
        | Raise e => ([], Raise e)
        end
    end
  else if decide (cmd = cmd_L) then
    match msg with
    | LoadRequest fields =>
        match load_model fields with
        | Ret (service', result, code) =>
            let resp := create_load_model_response code result in
            if negb (Z.eqb code 200)
            then ([resp], Raise (RuntimeError (py_str code +:+ " - " +:+ result)))
            else ([resp], Ret service')
        | Raise e => ([], Raise e)
        end
    | PredictRequest _ => ([], Raise (TypeError "not subscriptable"))
    end
  else ([], Raise (ValueError "Received unknown command")).

(** The loop of [handle_connection] over the frames the peer sends,
    with the local [service] as an argument. The profiling that
    [BENCHMARK] switches on around [retrieve_msg] does nothing on the
    connection; the profile file it writes is accounted for in
    [run_server]. *)
Fixpoint handle_connection_loop (service : option Service)
    (frames : list (list byte * message Payload))
    : list (event Payload) * ending :=
  match frames with
  | [] => ([], NoMoreFrames)
  | (cmd, msg) :: rest =>
      let '(sent, next) := dispatch service cmd msg in
      let here := Recv cmd msg :: map Send sent in
      match next with
      | Ret service' =>
          let '(tr, e) := handle_connection_loop service' rest in
          (here ++ tr, e)
      | Raise e => (here, Raised e)
      end
  end.

Definition handle_connection (cl_socket : list (list byte * message Payload))
    : list (event Payload) * ending :=
  handle_connection_loop None cl_socket.

(** A trace in which every response directly follows the request that
    [dispatch] answered with it, and nothing is read in between. *)
Inductive sequential : option Service -> list (event Payload) -> Prop :=
| seq_idle service : sequential service []
| seq_unanswered service cmd msg e :
    dispatch service cmd msg = ([], Raise e) ->
    sequential service [Recv cmd msg]
| seq_last service cmd msg resp e :
    dispatch service cmd msg = ([resp], Raise e) ->
    sequential service [Recv cmd msg; Send resp]
| seq_next service cmd msg resp service' tr :
    dispatch service cmd msg = ([resp], Ret service') ->
    sequential service' tr ->
    sequential service (Recv cmd msg :: Send resp :: tr).

(** The frames a trace read, in the order it read them. *)
Definition requests (tr : list (event Payload))
    : list (list byte * message Payload) :=
  omap (fun ev => match ev with
                  | Recv cmd msg => Some (cmd, msg)
                  | Send _ => None
                  end) tr.

(** The responses a trace wrote, in the order it wrote them. *)
Definition responses (tr : list (event Payload)) : list (list byte) :=
  omap (fun ev => match ev with
                  | Recv _ _ => None
                  | Send resp => Some resp
                  end) tr.

(** The worker object: the fields of [self] the code reads back. *)
Record worker : Type := Worker {
  sock_type : option str;
  sock_name : str;
  port : pyval
}.

(** The construction and initialisation of the metrics cache, which
    may raise. *)
Variable metrics_cache : result unit.

(** The rank of the process, [int(os.environ['RANK'])]. *)
Variable WORLD_RANK : Z.

(** Whether the environment sets [TS_BENCHMARK] to a spelling of true. *)
Variable BENCHMARK : bool.

(** [pr.dump_stats("/tmp/tsPythonProfile.prof")] where [BENCHMARK] is
    set: the profile file is written, or written again. *)
Definition dump_stats (fs : gset string) : gset string :=
  if BENCHMARK then fs ∪ {["/tmp/tsPythonProfile.prof"]} else fs.

(** [TorchModelServiceWorker.__init__] on a file system. *)
Definition __init__ (s_type s_name host_addr : option str)
    (port_num : option pyval) (fs : gset string)
    : gset string * result worker :=
  let finish (fs : gset string) (w : worker) :=
    (fs, _ ← metrics_cache; Ret w) in
  if decide (s_type = Some "unix") then
    match s_name with
    | None =>
        (fs, Raise (ValueError "Wrong arguments passed. No socket name given."))
    | Some s_name =>
        match rsplit1 "." s_name with
        | [part0; part1] =>
            match int_of_text is_space part1 with
            | Ret n =>
                let s_name_new :=
                  part0 +:+ "." +:+ py_str (n + WORLD_RANK) in
                let w := Worker s_type s_name_new (PyInt (-1)) in
                match os_remove fs s_name_new with
                | (fs', Ret _) => finish fs' w
                | (fs', Raise _) =>
                    if os_path_exists fs' s_name_new
                    then (fs', Raise (RuntimeError
                            ("socket already in use: " +:+ s_name_new +:+ ".")))
                    else finish fs' w
                end
            | Raise e => (fs, Raise e)
            end
        | _ => (fs, Raise IndexError)
        end
    end
  else if decide (s_type = Some "tcp") then
    match port_num with
    | None =>
        (fs, Raise (ValueError "Wrong arguments passed. No socket port given."))
    | Some p =>
        finish fs (Worker s_type (default "127.0.0.1" host_addr) p)
    end
  else (fs, Raise (ValueError "Incomplete data provided")).

(** [run_server]: bind, listen, accept and serve. [conn] is the
    connection [accept] returns, if one arrives before the time-out.
    [handle_connection] does not return, so the loop body runs once.
    Under [BENCHMARK] every iteration of [handle_connection] starts by
    writing the profile file, the first one as soon as the connection
    is handed over; that is its only effect outside the connection and
    it is accounted for here. *)
Definition run_server (self : worker)
    (conn : option (list (list byte * message Payload)))
    (fs : gset string) : gset string * (list (event Payload) * ending) :=
  let accept (named : bool) :=
    match conn with
    | None => ([], Raised SocketTimeout)
    | Some cl_socket =>
        if named then handle_connection cl_socket
        else ([], Raised (TypeError "can only concatenate str to str"))
    end in
  let profiled (fs : gset string) :=
    match conn with
    | None => fs
    | Some _ => dump_stats fs
    end in
  if decide (sock_type self = Some "unix") then
    if os_path_exists fs (sock_name self)
    then (fs, ([], Raised (OSError (sock_name self))))
    else (profiled (fs ∪ {[sock_name self]}), accept true)
  else
    match py_int (port self) with
    | Ret _ => (fs, accept false)
    | Raise e => (fs, ([], Raised e))
    end.

(** The [__main__] block from the parsed arguments on: under
    [BENCHMARK] write the profile file, construct the worker, run it,
    and in the [finally] clause remove the socket file. Both [except]
    clauses only log, and the profile dump behind [run_server] is never
    reached, since [run_server] does not return. The result is the file
    system the process leaves behind and what it did on its
    connection. *)
Definition main (sock_type socket_name host : option str)
    (port : option pyval)
    (conn : option (list (list byte * message Payload)))
    (fs : gset string) : gset string * list (event Payload) :=
  let fs := dump_stats fs in
  let '(fs, tr) :=
    match __init__ sock_type socket_name host port fs with
    | (fs, Ret worker) =>
        let '(fs, (tr, _)) := run_server worker conn fs in (fs, tr)
    | (fs, Raise _) => (fs, [])
    end in
  let fs :=
    if decide (sock_type = Some "unix") then
      match socket_name with
      | Some socket_name =>
          if os_path_exists fs socket_name
          then fst (os_remove fs socket_name)
          else fs
      | None => fs
      end
    else fs in
  (fs, tr).

End Collaborators.

End Worker.

(** ** The cache of a handler: [ts/handler_utils/cache/utils.py] *)

Module CacheUtils.

(** The values of a parsed YAML configuration. *)
#[warnings="-register-all"] Inductive yaml : Type :=
| YNone
| YBool (b : bool)
| YInt (z : Z)
| YStr (s : str)
| YList (l : list yaml)
| YDict (d : gmap string yaml).

(** [v[k]] with a string key: only a mapping can be subscripted so. *)
Definition subscript (v : yaml) (k : string) : result yaml :=
  match v with
  | YDict d => getitem d k
  | _ => Raise (TypeError "indices must be integers")
  end.

(** The context a handler is given; the code reads one attribute. *)
Record context : Type := Context { model_yaml_config : gmap string yaml }.

Module BackendCache.
Section Collaborators.

(** A cache class, the client its instances hold, [RedisCache],
    [list_classes_from_module] and the call [cls(config).client]. *)
Context {CacheClass Client : Type}.
Variable RedisCache : CacheClass.
Variable list_classes_from_module : str -> result (list CacheClass).
Variable client_of : CacheClass -> yaml -> result Client.

Definition _get_cache_definition (module : yaml) : result CacheClass :=
  match module with
  | YStr module =>
      let module := strip module in
      if str_contains "redis" module then Ret RedisCache
      else
        cache_class_definitions ← list_classes_from_module module;
        match cache_class_definitions with
        | [cache_class] => Ret cache_class
        | _ => Raise (ValueError "Expected only one class in custom cache module")
        end
  | _ => Raise (AttributeError "strip")
  end.

(** The statement [if "cache" not in ctx: assert "Cache config not
    specified"]. *)
Definition missing_config_check (ctx : gmap string yaml) : result unit :=
  if negb (contains ctx "cache")
  then py_assert (PyStr "Cache config not specified")
  else Ret tt.

(** [BackendCache.__init__]: the client stored in [self.client]. *)
Definition __init__ (context : option context) : result Client :=
  match context with
  | None => Raise (AttributeError "model_yaml_config")
  | Some context =>
      let ctx := model_yaml_config context in
      _ ← missing_config_check ctx;
      module ← getitem ctx "cache" ≫= (fun c => subscript c "module");
      config ← getitem ctx "cache" ≫= (fun c => subscript c "config");
      cache_class ← _get_cache_definition module;
      client_of cache_class config
  end.

End Collaborators.
End BackendCache.

End CacheUtils.

(** ** The [cache] decorator of [ts/handler_utils/cache/utils.py] *)

Module CacheDecorator.
Section Collaborators.

(** The handle of a handler, its other attributes, the arguments and
    the result of the decorated method. *)
Context {Handle Attrs Args R : Type}.

(** The handler object [self]: the three attributes the wrapper reads
    or writes, and the rest. *)
Record handler : Type := Handler {
  cache_initialized : bool;
  model_yaml_config : gmap string CacheUtils.yaml;
  handle : Handle;
  attrs : Attrs
}.

(** [RedisCache(config)(handle)], which may raise, and the decorated
    method, which returns or raises and may change the handler. *)
Variable redis_wrap : CacheUtils.yaml -> Handle -> result Handle.
Variable func : handler -> Args -> handler * result R.

(** [wrap_func], the function [cache(func)] returns. *)
Definition wrap_func (self : handler) (args : Args) : handler * result R :=
  if negb (cache_initialized self) then
    match func self args with
    | (self, Ret result) =>
        match getitem (model_yaml_config self) "cache"
                ≫= fun c => CacheUtils.subscript c "config" with
        | Ret config =>
            match redis_wrap config (handle self) with
            | Ret wrapped =>
                (Handler true (model_yaml_config self) wrapped (attrs self),
                 Ret result)
            | Raise e => (self, Raise e)
            end
        | Raise e => (self, Raise e)
        end
    | (self, Raise e) => (self, Raise e)
    end
  else func self args.

(** The handler after a series of calls of the wrapped method, whose
    exceptions the callers catch. *)
Definition calls (self : handler) (l : list Args) : handler :=
  foldl (fun self args => fst (wrap_func self args)) self l.

End Collaborators.
End CacheDecorator.

(** ** The continuous-batching decode engine

    [test/pytest/test_streaming_inference.py] drives a [StreamingHandler]
    whose [run_prefill] and [run_decode] are in a test-data file that is
    not part of the sources at hand. The engine below is written from
    sections 3, 4.3 and 4.4 of the specification, with the re-padding
    arithmetic that the scenario of its section 8 and the assertions of
    [test_decoding_stage] record: a batch is aligned on the real tokens
    of its sequences, so the padding a sequence got in an earlier batch
    is dropped, and prefill as well as decode append the token they
    produce. *)

Module Streaming.

(** Modelled from the spec: the status of a sequence, section 3. *)
Inductive status : Type :=
| Prefilling
| Decoding
| Completed.

#[global] Instance status_eq_decision : EqDecision status.
Proof. solve_decision. Defined.

(** Modelled from the spec: the errors of the missing handler that
    sections 4.4, 7 and 8 name, and the refusal of a second prefill. *)
Inductive engine_error : Type :=
| UnknownSequence
| Collision
| AlreadyPrefilled
| BatchExecutionError.

(** The number of real tokens a mask marks. *)
Fixpoint ones (mask : list bool) : nat :=
  match mask with
  | [] => 0
  | b :: mask => (if b then 1 else 0) + ones mask
  end.

Section Engine.

(** The tokens, the opaque incremental state of the model runtime, and
    the capabilities of the loaded model: its padding token, one forward
    step on one row of the batch (which may fail), its stop condition and
    its tokenizer. *)
Context {Token InternalState : Type}.
Variable pad_token : Token.
Variable forward_step :
  list Token -> list bool -> option InternalState -> option (Token * InternalState).
Variable is_stop : Token -> bool.
Variable detokenize : Token -> string.

(** Modelled from the spec: the Sequence State of section 3, which the
    missing handler keeps per request id. The mask holds [true] for a
    real token and [false] for padding. *)
Record sequence_state : Type := SequenceState {
  context : list Token;
  mask : list bool;
  internal_state : option InternalState;
  remaining_budget : nat;
  status_of : status
}.

(** Modelled from the spec: the payload of a request, as its prompt
    tokens and token budget. *)
Record payload : Type := Payload {
  prompt : list Token;
  max_new_tokens : nat
}.

(** Modelled from the spec: the registration of a request in the
    Sequence Cache (section 2, data flow): the context is the prompt,
    every position is real, there is no internal state yet. An id that
    is already cached is refused (section 8). *)
Definition register (id : string) (p : payload)
    (cache : gmap string sequence_state)
    : gmap string sequence_state * option engine_error :=
  match cache !! id with
  | Some _ => (cache, Some Collision)
  | None =>
      (<[id := SequenceState (prompt p) (replicate (length (prompt p)) true)
                 None (max_new_tokens p) Prefilling]> cache,
       None)
  end.

(** Modelled from the spec: what one produced token does to a sequence,
    step 4 of section 4.4: it is appended, the mask gets a 1, the budget
    is decremented, and the sequence completes on an exhausted budget or
    on the stop condition. *)
Definition append_token (tok : Token) (st : InternalState)
    (s : sequence_state) : sequence_state :=
  let budget := Nat.pred (remaining_budget s) in
  SequenceState (context s ++ [tok]) (mask s ++ [true]) (Some st) budget
    (if Nat.eqb budget 0 || is_stop tok then Completed else Decoding).

(** Modelled from the spec: [run_prefill] of the missing handler, the
    forward pass of section 4.3 on a cached sequence that has no
    internal state yet. It runs on the sequence alone, with its mask as
    it is, and keeps the token it produces: the scenario of section 8
    counts that token in the cached length. *)
Definition run_prefill (id : string) (cache : gmap string sequence_state)
    : gmap string sequence_state * option engine_error :=
  match cache !! id with
  | None => (cache, Some UnknownSequence)
  | Some s =>
      match internal_state s with
      | Some _ => (cache, Some AlreadyPrefilled)
      | None =>
          match forward_step (context s) (mask s) None with
          | Some (tok, st) => (<[id := append_token tok st s]> cache, None)
          | None => (cache, Some BatchExecutionError)
          end
      end
  end.

(** Modelled from the spec: [prefill] of section 4.3 from a payload, the
    registration followed by the forward pass. *)
Definition prefill (id : string) (p : payload)
    (cache : gmap string sequence_state)
    : gmap string sequence_state * option engine_error :=
  match register id p cache with
  | (cache, None) => run_prefill id cache
  | (cache, Some e) => (cache, Some e)
  end.

(** The number of real tokens of a sequence. *)
Definition real_length (s : sequence_state) : nat := ones (mask s).

(** Modelled from the spec: step 2 of section 4.4, the target length of
    a batch, as the scenario of section 8 fixes it: the largest number
    of real tokens among its sequences. *)
Definition target_length (batch : list (string * sequence_state)) : nat :=
  foldr (fun '(_, s) n => Nat.max (real_length s) n) 0%nat batch.

(** Modelled from the spec: step 2 of section 4.4, the alignment of a
    sequence on the target, as the scenario of section 8 fixes it: the
    padding in front of its real tokens is dropped and the real tokens
    are left-padded up to the target, on the context and on the mask. *)
Definition realign (target : nat) (s : sequence_state) : sequence_state :=
  let real := real_length s in
  let n := (target - real)%nat in
  SequenceState
    (replicate n pad_token ++ drop (length (context s) - real) (context s))
    (replicate n false ++ replicate real true)
    (internal_state s) (remaining_budget s) (status_of s).

(** Modelled from the spec: step 1 of section 4.4, what is fed forward:
    the whole context without internal state, the last token with it. *)
Definition fed (s : sequence_state) : list Token :=
  match internal_state s with
  | None => context s
  | Some _ => drop (length (context s) - 1) (context s)
  end.

(** Modelled from the spec: steps 3 and 4 of section 4.4 for one id. *)
Definition advance (s : sequence_state) : option (Token * sequence_state) :=
  match forward_step (fed s) (mask s) (internal_state s) with
  | Some (tok, st) => Some (tok, append_token tok st s)
  | None => None
  end.

(** Modelled from the spec: [decode] of sections 4.3 and 4.4, the
    missing [run_decode]. The ids found in the cache are aligned on the
    target length and advanced by one token; an unknown id is reported
    for itself; a failed forward step leaves the cache as it was. The
    output has, per id of the batch, the new token and its text. *)
Definition decode (batch : list string) (cache : gmap string sequence_state)
    : gmap string sequence_state
      * (engine_error + list (string * (engine_error + Token * string))) :=
  let known := omap (fun id => (fun s => (id, s)) <$> cache !! id) batch in
  let target := target_length known in
  let aligned := map (fun '(id, s) => (id, realign target s)) known in
  match mapM (fun '(id, s) => (fun r => (id, r)) <$> advance s) aligned with
  | None => (cache, inl BatchExecutionError)
  | Some stepped =>
      (foldr (fun '(id, (_, s)) c => <[id := s]> c) cache stepped,
       inr (map (fun id =>
                   (id,
                    match list_to_map (M := gmap string (Token * sequence_state)) stepped !! id with
                    | Some (tok, _) => inr (tok, detokenize tok)
                    | None => inl UnknownSequence
                    end)) batch))
  end.

(** Modelled from the spec: eviction of section 3, the removal of the
    completed sequences before the next step. *)
Definition evict (cache : gmap string sequence_state)
    : gmap string sequence_state :=
  filter (fun '(_, s) => status_of s <> Completed) cache.

(** Modelled from the spec: the invariant of section 3 on a sequence
    kept by the missing handler, context and mask of the same length. *)
Definition aligned (s : sequence_state) : Prop :=
  length (context s) = length (mask s).

(** Modelled from the spec: the operations on the Sequence Cache that
    section 8 lists, as calls of the missing handler. *)
Inductive operation : Type :=
| Prefill (id : string) (p : payload)
| RunPrefill (id : string)
| Decode (batch : list string)
| Evict.

(** Modelled from the spec: the cache after one operation. *)
Definition apply (o : operation) (cache : gmap string sequence_state)
    : gmap string sequence_state :=
  match o with
  | Prefill id p => fst (prefill id p cache)
  | RunPrefill id => fst (run_prefill id cache)
  | Decode batch => fst (decode batch cache)
  | Evict => evict cache
  end.

(** Modelled from the spec: the cache after a sequence of operations. *)
Definition run_from (cache : gmap string sequence_state)
    (ops : list operation) : gmap string sequence_state :=
  foldl (fun cache o => apply o cache) cache ops.

(** Modelled from the spec: the cache after a sequence of operations on
    the empty cache. *)
Definition run (ops : list operation) : gmap string sequence_state :=
  run_from ∅ ops.

End Engine.

End Streaming.


(** * Properties *)

(** ** Sample requests *)

Definition b (s : string) : pyval := PyBytes (list_byte_of_string s).

(** A load request with every field of the protocol. *)
Definition full_request : gmap string pyval :=
  <["modelPath" := b "/models/mnist"]>
  (<["modelName" := b "mnist"]>
  (<["handler" := b "mnist_handler"]>
  (<["envelope" := b "json"]>
  (<["batchSize" := PyInt 2]>
  (<["gpu" := PyInt 0]>
  (<["limitMaxImagePixels" := PyBool true]> ∅)))))).

(** A load request with the two mandatory fields only. *)
Definition bare_request : gmap string pyval :=
  <["modelPath" := b "/models/mnist"]> (<["modelName" := b "mnist"]> ∅).

(** A load request whose handler field is present and empty. *)
Definition plain_request : gmap string pyval :=
  <["handler" := b ""]> bare_request.

(** A load request for a model too large for the host. *)
Definition huge_request : gmap string pyval :=
  <["modelName" := b "huge"]> plain_request.

(** A loader that runs out of memory on the model named [huge] and
    otherwise returns a service known by the name of its model. *)
Definition sample_loader (a : Worker.load_args) : result str :=
  if String.eqb (Worker.model_name a) "huge" then Raise MemoryError
  else Ret (Worker.model_name a).

(** A service that answers a payload with its name and the payload. *)
Definition sample_predict (service : str) (msg : Worker.message (list byte))
    : result (list byte) :=
  match msg with
  | Worker.PredictRequest payload =>
      Ret (list_byte_of_string service ++ payload)
  | Worker.LoadRequest _ => Raise (TypeError "payload expected")
  end.

(** A response frame that spells out the code and the message. *)
Definition sample_response (code : Z) (msg : str) : list byte :=
  list_byte_of_string (py_str code +:+ " " +:+ msg).

(** A configuration without a [cache] entry. *)
Definition sample_context : CacheUtils.context :=
  CacheUtils.Context (<["minWorkers" := CacheUtils.YInt 1]> ∅).

(** A forward step that always succeeds: the next token is the number of
    tokens it was fed. *)
Definition sample_forward (context : list nat) (mask : list bool)
    (st : option unit) : option (nat * unit) :=
  Some (length context, tt).

(** The engine on that forward step, with no stop token. *)
Definition sample_apply (o : Streaming.operation)
    (cache : gmap string Streaming.sequence_state)
    : gmap string Streaming.sequence_state :=
  Streaming.apply 0%nat sample_forward (fun _ => false) (fun _ => "") o cache.

(** The lengths of the context and of the mask cached for an id. *)
Definition lengths {Token InternalState : Type}
    (cache : gmap string (@Streaming.sequence_state Token InternalState))
    (id : string) : option (nat * nat) :=
  (fun s => (length (Streaming.context s), length (Streaming.mask s)))
    <$> cache !! id.

(** The cache as [test_decoding_stage] sets it up before the first
    call: [id1] with five input ids of which the mask marks the first
    two as padding, [id2] with eight real input ids, neither with any
    internal state. *)
Definition test_cache {Token InternalState : Type}
    (input_ids1 input_ids2 : list Token) (budget1 budget2 : nat)
    : gmap string (@Streaming.sequence_state Token InternalState) :=
  <["id1" := Streaming.SequenceState input_ids1
               [false; false; true; true; true] None budget1
               Streaming.Prefilling]>
  (<["id2" := Streaming.SequenceState input_ids2 (replicate 8 true) None
                budget2 Streaming.Prefilling]> ∅).

(** ** Builtins *)

Example int_of_text_9000 : int_of_text is_space "9000" = Ret 9000.
Proof. reflexivity. Qed.

Example int_of_text_spaced : int_of_text is_space " -1_000 " = Ret (-1000).
Proof. reflexivity. Qed.

Example int_of_text_trailing_underscore :
  int_of_text is_space "9_"
  = Raise (ValueError "invalid literal for int() with base 10").
Proof. reflexivity. Qed.

Example int_of_text_separator :
  int_of_text is_space (String "028" "12")
  = Raise (ValueError "invalid literal for int() with base 10").
Proof. reflexivity. Qed.

Example strip_separator : strip (String "028" "ab") = "ab".
Proof. reflexivity. Qed.

Example py_str_9001 : py_str 9001 = "9001".
Proof. vm_compute. reflexivity. Qed.

Example rsplit1_socket :
  rsplit1 "." "/tmp/.ts.sock.9000" = ["/tmp/.ts.sock"; "9000"].
Proof. reflexivity. Qed.

Example rsplit1_no_dot : rsplit1 "." "socket" = ["socket"].
Proof. reflexivity. Qed.

Example decode_ascii : decode_utf8 (b "mnist") = Ret "mnist".
Proof. reflexivity. Qed.

Example decode_lone_continuation :
  decode_utf8 (PyBytes [x80]) = Raise UnicodeDecodeError.
Proof. reflexivity. Qed.

(** ** The worker *)

Section WorkerProperties.

Context {Service Payload : Type}.
Variable model_loader_load : Worker.load_args -> result Service.
Variable predict : Service -> Worker.message Payload -> result (list byte).
Variable create_load_model_response : Z -> str -> list byte.

(** A bind that returns has a first computation that returns. *)
Lemma bind_Ret {A B : Type} (m : result A) (f : A -> result B) (y : B) :
  m ≫= f = Ret y -> exists x, m = Ret x /\ f x = Ret y.
Proof. destruct m as [x|e]; simpl; [eauto | discriminate]. Qed.

(** Splits the binds of a hypothesis [_ = Ret _]. *)
Ltac split_binds H :=
  repeat match type of H with
         | _ ≫= _ = Ret _ =>
             let x := fresh "x" in
             let Hx := fresh "Hx" in
             apply bind_Ret in H as (x & Hx & H)
         end.

(** C4. A load request that loads successfully is answered with the
    service, the message "loaded model " followed by the decoded
    [modelName] field of the request, and the code 200. *)
Theorem load_model_success (req : gmap string pyval) (service : Service)
    (name : str) :
  Worker.load_model_try model_loader_load req = Ret (service, name) ->
  getitem req "modelName" ≫= decode_utf8 = Ret name /\
  Worker.load_model model_loader_load req
    = Ret (Some service, "loaded model " +:+ name, 200).
Proof.
  intros H. split.
  - unfold Worker.load_model_try in H. split_binds H.
    injection H as _ ->. exact Hx0.
  - unfold Worker.load_model. rewrite H. reflexivity.
Qed.

(** C5. [load_model] returns the code 507 exactly when the [try] block
    raised [MemoryError], and then with no service and the message
    "System out of memory"; any other exception leaves [load_model] as
    it was raised. *)
Theorem load_model_out_of_memory (req : gmap string pyval) :
  (forall s m, Worker.load_model model_loader_load req = Ret (s, m, 507) <->
     Worker.load_model_try model_loader_load req = Raise MemoryError /\
     s = None /\ m = "System out of memory") /\
  (forall e, e <> MemoryError ->
     Worker.load_model_try model_loader_load req = Raise e ->
     Worker.load_model model_loader_load req = Raise e).
Proof.
  unfold Worker.load_model. split.
  - intros s m.
    destruct (Worker.load_model_try model_loader_load req) as [[svc name]|e].
    + split; [discriminate | intros [? _]; discriminate].
    + destruct e; split; intros H;
        try discriminate; try (apply proj1 in H; discriminate).
      * injection H as <- <-. auto.
      * destruct H as (_ & -> & ->). reflexivity.
  - intros e Hne ->. destruct e; congruence.
Qed.

(** The responses of one iteration: none and an exception, or one. *)
Lemma dispatch_shape (service : option Service) (cmd : list byte)
    (msg : Worker.message Payload) :
  (exists e, Worker.dispatch model_loader_load predict
               create_load_model_response service cmd msg = ([], Raise e)) \/
  (exists resp next, Worker.dispatch model_loader_load predict
               create_load_model_response service cmd msg = ([resp], next)).
Proof.
  unfold Worker.dispatch.
  repeat first
    [ case_decide
    | match goal with
      | |- context [match ?x with _ => _ end] => destruct x
      end ]; eauto.
Qed.

(** One step of the loop on a load command, from the result of
    [load_model]. *)
Lemma dispatch_load (service s : option Service)
    (fields : gmap string pyval) (result : str) (code : Z) :
  Worker.load_model model_loader_load fields = Ret (s, result, code) ->
  Worker.dispatch model_loader_load predict create_load_model_response
    service Worker.cmd_L (Worker.LoadRequest fields)
  = ([create_load_model_response code result],
     if decide (code = 200) then Ret s
     else Raise (RuntimeError (py_str code +:+ " - " +:+ result))).
Proof.
  intros H. unfold Worker.dispatch. rewrite H.
  rewrite decide_False by discriminate. rewrite decide_True by reflexivity.
  destruct (Z.eqb_spec code 200), (decide (code = 200)); simpl; congruence.
Qed.

(** The loop after a load command that succeeded. *)
Lemma loop_load_success (service s : option Service)
    (fields : gmap string pyval) (result : str) (code : Z)
    (rest : list (list byte * Worker.message Payload)) :
  Worker.load_model model_loader_load fields = Ret (s, result, code) ->
  code = 200 ->
  let loop := Worker.handle_connection_loop model_loader_load predict
                create_load_model_response in
  loop service ((Worker.cmd_L, Worker.LoadRequest fields) :: rest)
  = (Worker.Recv Worker.cmd_L (Worker.LoadRequest fields)
       :: Worker.Send (create_load_model_response code result)
       :: fst (loop s rest),
     snd (loop s rest)).
Proof.
  intros H Hc loop. subst loop. cbn [Worker.handle_connection_loop].
  rewrite (dispatch_load service s fields result code H).
  rewrite decide_True by assumption.
  destruct (Worker.handle_connection_loop _ _ _ s rest). reflexivity.
Qed.

(** C3. On a load command for which [load_model] returns a code other
    than 200, the loop writes the response frame built from that code
    and message and then raises, reading nothing more; with the code 200
    it writes the response and goes on to the next frame with the loaded
    service. *)
Theorem load_failure_answered_then_raised (service s : option Service)
    (fields : gmap string pyval) (result : str) (code : Z)
    (rest : list (list byte * Worker.message Payload)) :
  Worker.load_model model_loader_load fields = Ret (s, result, code) ->
  let frame := (Worker.cmd_L, Worker.LoadRequest fields) in
  let loop := Worker.handle_connection_loop model_loader_load predict
                create_load_model_response in
  let answered :=
    [Worker.Recv Worker.cmd_L (Worker.LoadRequest fields);
     Worker.Send (create_load_model_response code result)] in
  (code <> 200 ->
   loop service (frame :: rest)
   = (answered, Worker.Raised (RuntimeError (py_str code +:+ " - " +:+ result)))) /\
  (code = 200 ->
   loop service (frame :: rest)
   = (answered ++ fst (loop s rest), snd (loop s rest))).
Proof.
  intros H frame loop answered. subst frame loop answered.
  cbn [Worker.handle_connection_loop].
  rewrite (dispatch_load service s fields result code H).
  split; intros Hc.
  - rewrite decide_False by assumption. reflexivity.
  - rewrite decide_True by assumption.
    destruct (Worker.handle_connection_loop _ _ _ s rest). reflexivity.
Qed.

(** C6. A load request without the [handler] key is not loaded:
    [load_model] leaves with the [KeyError] of the unguarded
    subscript. *)
Theorem load_model_without_handler_key :
  Worker.load_model model_loader_load bare_request = Raise (KeyError "handler").
Proof. vm_compute. reflexivity. Qed.

(** The same in general: no request without the key reaches the loader. *)
Lemma load_model_try_needs_handler (req : gmap string pyval) :
  req !! "handler" = None ->
  exists e, Worker.load_model_try model_loader_load req = Raise e /\
            e <> MemoryError.
Proof.
  intros H. unfold Worker.load_model_try, getitem. rewrite H.
  destruct (req !! "modelPath") as [v|]; simpl; [|eexists; split; [reflexivity|discriminate]].
  destruct (decode_utf8 v) as [d|e] eqn:Hd; simpl.
  2:{ exists e. split; [reflexivity|].
      unfold decode_utf8 in Hd.
      destruct v; try (injection Hd as <-; discriminate).
      destruct (utf8_valid b0); [discriminate|]. injection Hd as <-. discriminate. }
  destruct (req !! "modelName") as [v'|]; simpl; [|eexists; split; [reflexivity|discriminate]].
  destruct (decode_utf8 v') as [d'|e] eqn:Hd'; simpl.
  2:{ exists e. split; [reflexivity|].
      unfold decode_utf8 in Hd'.
      destruct v'; try (injection Hd' as <-; discriminate).
      destruct (utf8_valid b0); [discriminate|]. injection Hd' as <-. discriminate. }
  eexists; split; [reflexivity|discriminate].
Qed.

(** X9. The exception of a failed load leaves [run_server] too: the server
    stops after the response and serves nothing more. *)
Lemma load_failure_stops_the_server (BENCHMARK : bool)
    (self : Worker.worker)
    (fields : gmap string pyval) (s : option Service) (result : str)
    (code : Z) (rest : list (list byte * Worker.message Payload))
    (fs : gset string) :
  Worker.sock_type self = Some "unix" ->
  Worker.sock_name self ∉ fs ->
  Worker.load_model model_loader_load fields = Ret (s, result, code) ->
  code <> 200 ->
  snd (Worker.run_server model_loader_load predict create_load_model_response
         BENCHMARK self
         (Some ((Worker.cmd_L, Worker.LoadRequest fields) :: rest)) fs)
  = ([Worker.Recv Worker.cmd_L (Worker.LoadRequest fields);
      Worker.Send (create_load_model_response code result)],
     Worker.Raised (RuntimeError (py_str code +:+ " - " +:+ result))).
Proof.
  intros Hty Hfree Hload Hcode. unfold Worker.run_server.
  rewrite decide_True by assumption.
  unfold os_path_exists. rewrite bool_decide_eq_false_2 by assumption.
  cbn [snd]. unfold Worker.handle_connection.
  cbn [Worker.handle_connection_loop].
  rewrite (dispatch_load None s fields result code Hload).
  rewrite decide_False by assumption. reflexivity.
Qed.

(** The sibling fields are guarded by [in]: a request with an empty
    handler and none of them is loaded, with the defaults. *)
Lemma load_model_without_optional_fields (service : Service) :
  model_loader_load
    (Worker.LoadArgs "mnist" "/models/mnist" None None None None true)
    = Ret service ->
  Worker.load_model model_loader_load plain_request
    = Ret (Some service, "loaded model mnist", 200).
Proof.
  intros H. unfold Worker.load_model.
  assert (Worker.load_model_try model_loader_load plain_request
          = Ret (service, "mnist")) as ->; [|reflexivity].
  replace (Worker.load_model_try model_loader_load plain_request)
    with (model_loader_load
            (Worker.LoadArgs "mnist" "/models/mnist" None None None None true)
          ≫= fun s => Ret (s, "mnist" : str))
    by (vm_compute; reflexivity).
  rewrite H. reflexivity.
Qed.

(** The loop on a run of predict commands that the session answers. *)
Lemma loop_predicts (svc : Service)
    (served : list (Worker.message Payload * list byte))
    (rest : list (list byte * Worker.message Payload)) :
  Forall (fun p => predict svc p.1 = Ret p.2) served ->
  let loop := Worker.handle_connection_loop model_loader_load predict
                create_load_model_response in
  loop (Some svc) (map (fun p => (Worker.cmd_I, p.1)) served ++ rest)
  = (flat_map (fun p => [Worker.Recv Worker.cmd_I p.1; Worker.Send p.2]) served
       ++ fst (loop (Some svc) rest),
     snd (loop (Some svc) rest)).
Proof.
  intros H loop. subst loop. induction H as [|[msg resp] served Hp _ IH].
  - simpl. destruct (Worker.handle_connection_loop _ _ _ _ rest). reflexivity.
  - simpl in Hp. cbn [map flat_map app Worker.handle_connection_loop fst snd].
    unfold Worker.dispatch at 1. rewrite decide_True by reflexivity.
    rewrite Hp. rewrite IH. reflexivity.
Qed.

(** C7. After a load that succeeded, each predict command that follows
    is answered with what [predict] of the loaded service returns for
    it; a predict command met with no service loaded raises with no
    response, and so a connection that sends one before any load
    command gets no response at all. *)
Theorem predict_answered_by_loaded_session (service : option Service)
    (fields : gmap string pyval) (svc : Service) (result : str)
    (served : list (Worker.message Payload * list byte))
    (rest : list (list byte * Worker.message Payload)) :
  Worker.load_model model_loader_load fields = Ret (Some svc, result, 200) ->
  Forall (fun p => predict svc p.1 = Ret p.2) served ->
  let loop := Worker.handle_connection_loop model_loader_load predict
                create_load_model_response in
  let handle_connection := Worker.handle_connection model_loader_load predict
                create_load_model_response in
  loop service ((Worker.cmd_L, Worker.LoadRequest fields)
                  :: map (fun p => (Worker.cmd_I, p.1)) served ++ rest)
  = (Worker.Recv Worker.cmd_L (Worker.LoadRequest fields)
       :: Worker.Send (create_load_model_response 200 result)
       :: flat_map (fun p => [Worker.Recv Worker.cmd_I p.1; Worker.Send p.2]) served
       ++ fst (loop (Some svc) rest),
     snd (loop (Some svc) rest)) /\
  (forall msg rest',
     loop None ((Worker.cmd_I, msg) :: rest')
     = ([Worker.Recv Worker.cmd_I msg], Worker.Raised (AttributeError "predict"))) /\
  (forall pre msg rest',
     Forall (fun f => f.1 <> Worker.cmd_L) pre ->
     Worker.responses
       (fst (handle_connection (pre ++ (Worker.cmd_I, msg) :: rest'))) = []).
Proof.
  intros Hload Hserved loop handle_connection.
  assert (forall msg rest',
     loop None ((Worker.cmd_I, msg) :: rest')
     = ([Worker.Recv Worker.cmd_I msg], Worker.Raised (AttributeError "predict")))
    as Hnone.
  { intros msg rest'. subst loop. cbn [Worker.handle_connection_loop].
    unfold Worker.dispatch. rewrite decide_True by reflexivity. reflexivity. }
  split; [|split].
  - pose proof (loop_load_success service (Some svc) fields
                  result 200 (map (fun p => (Worker.cmd_I, p.1)) served ++ rest)
                  Hload eq_refl) as Hl.
    subst loop. rewrite Hl.
    rewrite (loop_predicts svc served rest Hserved). reflexivity.
  - exact Hnone.
  - intros pre msg rest' Hpre.
    change (handle_connection (pre ++ (Worker.cmd_I, msg) :: rest'))
      with (loop None (pre ++ (Worker.cmd_I, msg) :: rest')).
    destruct pre as [|[cmd m] pre].
    + cbn [app]. rewrite Hnone. reflexivity.
    + apply Forall_cons_1 in Hpre as [Hcmd _]. simpl in Hcmd.
      subst loop. cbn [app Worker.handle_connection_loop].
      unfold Worker.dispatch. case_decide; [reflexivity|].
      rewrite decide_False by assumption. reflexivity.
Qed.

(** C8. On one connection every response is written right after the
    request that [dispatch] answered with it and before anything else is
    read, and the requests are read in the order the peer sent them: the
    trace is sequential and its requests are a prefix of the frames. *)
Theorem commands_served_in_order (service : option Service)
    (frames : list (list byte * Worker.message Payload)) :
  let tr := fst (Worker.handle_connection_loop model_loader_load predict
                   create_load_model_response service frames) in
  Worker.sequential model_loader_load predict create_load_model_response
    service tr /\
  Worker.requests tr `prefix_of` frames /\
  (length (Worker.responses tr) <= length (Worker.requests tr))%nat.
Proof.
  cbv zeta. revert service.
  induction frames as [|[cmd msg] rest IH]; intros service.
  - simpl. split; [constructor|]. split; [apply prefix_nil|reflexivity].
  - cbn [Worker.handle_connection_loop].
    destruct (dispatch_shape service cmd msg) as [[e He]|(resp & next & He)];
      rewrite He.
    + simpl. split; [econstructor; exact He|].
      split; [apply prefix_cons, prefix_nil|lia].
    + destruct next as [service'|e].
      * specialize (IH service').
        destruct (Worker.handle_connection_loop _ _ _ service' rest)
          as [tr e] eqn:Hl.
        simpl in IH |- *. destruct IH as (Hs & Hp & Hn).
        split; [econstructor; eassumption|].
        split; [apply prefix_cons, Hp|lia].
      * simpl. split; [eapply Worker.seq_last; exact He|].
        split; [apply prefix_cons, prefix_nil|lia].
Qed.

(** The socket file of a worker that started: what [__init__] derived
    and [run_server] bound is still there after [main] whenever it
    differs from the name on the command line. *)
Lemma bound_socket_survives (metrics_cache : result unit) (WORLD_RANK : Z)
    (BENCHMARK : bool)
    (socket_name : str) (host : option str) (port : option pyval)
    (conn : option (list (list byte * Worker.message Payload)))
    (fs fs' : gset string) (w : Worker.worker) :
  Worker.__init__ metrics_cache WORLD_RANK (Some "unix") (Some socket_name)
    host port (Worker.dump_stats BENCHMARK fs) = (fs', Ret w) ->
  Worker.sock_name w <> socket_name ->
  Worker.sock_name w ∈
    fst (Worker.main model_loader_load predict create_load_model_response
           metrics_cache WORLD_RANK BENCHMARK (Some "unix") (Some socket_name)
           host port conn fs).
Proof.
  intros Hinit Hne. unfold Worker.main. rewrite Hinit.
  assert (Worker.sock_type w = Some "unix" /\ Worker.sock_name w ∉ fs')
    as [Hty Hfree].
  { unfold Worker.__init__ in Hinit.
    rewrite decide_True in Hinit by reflexivity.
    destruct (rsplit1 "." socket_name) as [|p0 [|p1 [|]]];
      [discriminate Hinit|discriminate Hinit| |discriminate Hinit].
    destruct (int_of_text is_space p1) as [n|]; [|discriminate Hinit].
    unfold os_remove, os_path_exists in Hinit.
    set (new := p0 +:+ "." +:+ py_str (n + WORLD_RANK)) in Hinit.
    clearbody new.
    destruct (bool_decide (new ∈ Worker.dump_stats BENCHMARK fs)) eqn:Hin;
      cbv beta iota zeta in Hinit.
    - destruct metrics_cache; cbn in Hinit; [|discriminate Hinit].
      injection Hinit as <- <-. cbn. split; [reflexivity|].
      rewrite elem_of_difference, elem_of_singleton. tauto.
    - rewrite Hin in Hinit.
      destruct metrics_cache; cbn in Hinit; [|discriminate Hinit].
      injection Hinit as <- <-. cbn. split; [reflexivity|].
      apply bool_decide_eq_false in Hin. exact Hin. }
  unfold Worker.run_server. rewrite decide_True by assumption.
  unfold os_path_exists at 1. rewrite bool_decide_eq_false_2 by assumption.
  set (bound := Worker.sock_name w) in *. clearbody bound.
  clear Hinit Hty. unfold Worker.dump_stats.
  destruct conn as [frames|];
    [destruct (Worker.handle_connection _ _ _ frames) as [tr e]|];
    destruct BENCHMARK; rewrite decide_True by reflexivity; cbn [fst];
    unfold os_path_exists, os_remove; repeat case_bool_decide; cbn [fst];
    repeat (rewrite elem_of_difference || rewrite elem_of_union
            || rewrite elem_of_singleton);
    intuition congruence.
Qed.

(** C9. A worker of rank 1 started on the unix socket
    [/tmp/.ts.sock.9000] binds [/tmp/.ts.sock.9001], and that file is
    still there when the process has shut down: the [finally] clause
    looks at the name it was given, not at the one it bound. *)
Theorem socket_file_left_behind (BENCHMARK : bool)
    (conn : option (list (list byte * Worker.message Payload))) :
  Worker.__init__ (Ret tt) 1 (Some "unix") (Some "/tmp/.ts.sock.9000")
    None None ∅
  = (∅, Ret (Worker.Worker (Some "unix") "/tmp/.ts.sock.9001" (PyInt (-1)))) /\
  "/tmp/.ts.sock.9001" ∈
    fst (Worker.main model_loader_load predict create_load_model_response
           (Ret tt) 1 BENCHMARK (Some "unix") (Some "/tmp/.ts.sock.9000")
           None None conn ∅).
Proof.
  split; [vm_compute; reflexivity|].
  assert (Worker.__init__ (Ret tt) 1 (Some "unix") (Some "/tmp/.ts.sock.9000")
            None None (Worker.dump_stats BENCHMARK ∅)
          = (Worker.dump_stats BENCHMARK ∅,
             Ret (Worker.Worker (Some "unix") "/tmp/.ts.sock.9001" (PyInt (-1)))))
    as Hinit by (destruct BENCHMARK; vm_compute; reflexivity).
  apply (bound_socket_survives (Ret tt) 1 BENCHMARK "/tmp/.ts.sock.9000"
           None None conn ∅ _ _ Hinit).
  discriminate.
Qed.

(** With rank 0 and a suffix in canonical decimal form the two names
    agree and the socket file is removed. *)
Lemma socket_file_removed_rank_0 (BENCHMARK : bool)
    (conn : option (list (list byte * Worker.message Payload))) :
  "/tmp/.ts.sock.9000" ∉
    fst (Worker.main model_loader_load predict create_load_model_response
           (Ret tt) 0 BENCHMARK (Some "unix") (Some "/tmp/.ts.sock.9000")
           None None conn ∅).
Proof.
  unfold Worker.main.
  replace (Worker.__init__ (Ret tt) 0 (Some "unix") (Some "/tmp/.ts.sock.9000")
            None None (Worker.dump_stats BENCHMARK ∅))
    with (Worker.dump_stats BENCHMARK ∅,
          Ret (Worker.Worker (Some "unix") "/tmp/.ts.sock.9000" (PyInt (-1))))
    by (destruct BENCHMARK; vm_compute; reflexivity).
  unfold Worker.run_server. cbn [Worker.sock_type Worker.sock_name].
  rewrite decide_True by reflexivity.
  unfold os_path_exists at 1.
  rewrite bool_decide_eq_false_2
    by (apply (bool_decide_unpack _); destruct BENCHMARK; vm_compute; exact I).
  destruct conn as [frames|];
    [destruct (Worker.handle_connection _ _ _ frames) as [tr e]|];
    rewrite decide_True by reflexivity; cbn [fst];
    unfold os_path_exists, os_remove; repeat case_bool_decide; cbn [fst];
    try assumption; rewrite elem_of_difference, elem_of_singleton; tauto.
Qed.

End WorkerProperties.

(** *** The worker on the sample collaborators *)

(** A worker of rank 1 that finds the socket file of the worker of
    rank 0 removes that file on shutdown and leaves its own. *)
Example rank_1_removes_the_socket_of_rank_0 :
  fst (Worker.main sample_loader sample_predict sample_response (Ret tt) 1
         false (Some "unix") (Some "/tmp/.ts.sock.9000") None None None
         {["/tmp/.ts.sock.9000"]})
  = {["/tmp/.ts.sock.9001"]}.
Proof. vm_compute. reflexivity. Qed.

(** Under [TS_BENCHMARK] the same worker leaves the profile file too. *)
Example rank_1_leaves_the_profile :
  fst (Worker.main sample_loader sample_predict sample_response (Ret tt) 1
         true (Some "unix") (Some "/tmp/.ts.sock.9000") None None None
         {["/tmp/.ts.sock.9000"]})
  = {["/tmp/.ts.sock.9001"; "/tmp/tsPythonProfile.prof"]}.
Proof. vm_compute. reflexivity. Qed.

Lemma load_model_success_witness :
  getitem full_request "modelName" ≫= decode_utf8 = Ret "mnist" /\
  Worker.load_model sample_loader full_request
    = Ret (Some "mnist", "loaded model mnist", 200).
Proof.
  apply (load_model_success sample_loader full_request "mnist" "mnist").
  vm_compute. reflexivity.
Defined.

Lemma load_model_out_of_memory_witness :
  Worker.load_model sample_loader huge_request
    = Ret (None, "System out of memory", 507).
Proof.
  apply (proj1 (load_model_out_of_memory sample_loader huge_request)).
  split; [vm_compute; reflexivity | split; reflexivity].
Defined.

Lemma load_failure_answered_then_raised_witness :
  Worker.handle_connection_loop sample_loader sample_predict sample_response
    None
    [(Worker.cmd_L, Worker.LoadRequest huge_request);
     (Worker.cmd_I, Worker.PredictRequest [x01])]
  = ([Worker.Recv Worker.cmd_L (Worker.LoadRequest huge_request);
      Worker.Send (sample_response 507 "System out of memory")],
     Worker.Raised (RuntimeError "507 - System out of memory")).
Proof.
  assert (Worker.load_model sample_loader huge_request
          = Ret (None, "System out of memory", 507)) as H
    by (vm_compute; reflexivity).
  apply (proj1 (load_failure_answered_then_raised sample_loader sample_predict
                  sample_response None None huge_request
                  "System out of memory" 507
                  [(Worker.cmd_I, Worker.PredictRequest [x01])] H)).
  discriminate.
Defined.

Lemma predict_answered_by_loaded_session_witness :
  Worker.handle_connection_loop sample_loader sample_predict sample_response
    None
    [(Worker.cmd_L, Worker.LoadRequest full_request);
     (Worker.cmd_I, Worker.PredictRequest [x01]);
     (Worker.cmd_I, Worker.PredictRequest [x02])]
  = ([Worker.Recv Worker.cmd_L (Worker.LoadRequest full_request);
      Worker.Send (sample_response 200 "loaded model mnist");
      Worker.Recv Worker.cmd_I (Worker.PredictRequest [x01]);
      Worker.Send (list_byte_of_string "mnist" ++ [x01]);
      Worker.Recv Worker.cmd_I (Worker.PredictRequest [x02]);
      Worker.Send (list_byte_of_string "mnist" ++ [x02])],
     Worker.NoMoreFrames).
Proof.
  assert (Worker.load_model sample_loader full_request
          = Ret (Some "mnist", "loaded model mnist", 200)) as H
    by (vm_compute; reflexivity).
  assert (Forall (fun p => sample_predict "mnist" p.1 = Ret p.2)
            [(Worker.PredictRequest [x01], list_byte_of_string "mnist" ++ [x01]);
             (Worker.PredictRequest [x02], list_byte_of_string "mnist" ++ [x02])])
    as Hs by (repeat constructor).
  apply (proj1 (predict_answered_by_loaded_session sample_loader sample_predict
                  sample_response None full_request "mnist"
                  "loaded model mnist" _ [] H Hs)).
Defined.

(** ** The backend cache *)

Section CacheProperties.

Context {CacheClass Client : Type}.
Variable RedisCache : CacheClass.
Variable list_classes_from_module : str -> result (list CacheClass).
Variable client_of : CacheClass -> CacheUtils.yaml -> result Client.

(** C10. On a context whose [model_yaml_config] has no [cache] key,
    [BackendCache.__init__] raises [KeyError] for that key; the check
    before it asserts a non-empty string and so passes on every
    configuration. *)
Theorem backend_cache_without_config (context : CacheUtils.context) :
  CacheUtils.model_yaml_config context !! "cache" = None ->
  CacheUtils.BackendCache.__init__ RedisCache list_classes_from_module
    client_of (Some context) = Raise (KeyError "cache") /\
  (forall ctx, CacheUtils.BackendCache.missing_config_check ctx = Ret tt).
Proof.
  intros H.
  assert (forall ctx, CacheUtils.BackendCache.missing_config_check ctx = Ret tt)
    as Hcheck.
  { intros ctx. unfold CacheUtils.BackendCache.missing_config_check.
    destruct (negb (contains ctx "cache")); reflexivity. }
  split; [|exact Hcheck].
  unfold CacheUtils.BackendCache.__init__. rewrite Hcheck.
  unfold getitem. rewrite H. reflexivity.
Qed.

End CacheProperties.

Lemma backend_cache_without_config_witness :
  CacheUtils.BackendCache.__init__ tt (fun _ => Ret []) (fun _ _ => Ret tt)
    (Some sample_context) = Raise (KeyError "cache").
Proof.
  apply (proj1 (backend_cache_without_config tt (fun _ => Ret [])
                  (fun _ _ => Ret tt) sample_context eq_refl)).
Defined.

(** ** The decode engine *)

Section EngineProperties.

Context {Token InternalState : Type}.
Variable pad_token : Token.
Variable forward_step :
  list Token -> list bool -> option InternalState -> option (Token * InternalState).
Variable is_stop : Token -> bool.
Variable detokenize : Token -> string.

Local Abbreviation sequence_state :=
  (@Streaming.sequence_state Token InternalState).
Local Abbreviation cache_aligned :=
  (map_Forall (fun (_ : string) (s : sequence_state) => Streaming.aligned s)).

Lemma ones_le_length (mask : list bool) :
  (Streaming.ones mask <= length mask)%nat.
Proof.
  induction mask as [|b mask IH]; cbn [Streaming.ones length]; [lia|].
  destruct b; lia.
Qed.

Lemma realign_aligned (target : nat) (s : sequence_state) :
  Streaming.aligned s -> Streaming.aligned (Streaming.realign pad_token target s).
Proof.
  unfold Streaming.aligned, Streaming.realign, Streaming.real_length. cbn.
  intros H. pose proof (ones_le_length (Streaming.mask s)) as Hle.
  rewrite !length_app, !length_replicate, length_drop. lia.
Qed.

Lemma append_token_aligned (tok : Token) (st : InternalState)
    (s : sequence_state) :
  Streaming.aligned s ->
  Streaming.aligned (Streaming.append_token is_stop tok st s).
Proof.
  unfold Streaming.aligned, Streaming.append_token. cbn. intros H.
  rewrite !length_app, H. reflexivity.
Qed.

Lemma advance_aligned (s s' : sequence_state) (tok : Token) :
  Streaming.aligned s ->
  Streaming.advance forward_step is_stop s = Some (tok, s') ->
  Streaming.aligned s'.
Proof.
  unfold Streaming.advance. intros H Ha.
  destruct (forward_step _ _ _) as [[t st]|]; [|discriminate].
  injection Ha as _ <-. apply append_token_aligned, H.
Qed.

Lemma run_prefill_aligned (id : string)
    (cache : gmap string sequence_state) :
  cache_aligned cache ->
  cache_aligned (fst (Streaming.run_prefill forward_step is_stop id cache)).
Proof.
  intros H. unfold Streaming.run_prefill.
  destruct (cache !! id) as [s|] eqn:Hs; [|exact H].
  destruct (Streaming.internal_state s); [exact H|].
  destruct (forward_step _ _ _) as [[t st]|]; [|exact H].
  cbn [fst]. apply map_Forall_insert_2; [|exact H].
  apply append_token_aligned, (H id s Hs).
Qed.

Lemma register_aligned (id : string) (p : @Streaming.payload Token)
    (cache : gmap string sequence_state) :
  cache_aligned cache ->
  cache_aligned (fst (Streaming.register id p cache)).
Proof.
  intros H. unfold Streaming.register.
  destruct (cache !! id); [exact H|].
  cbn [fst]. apply map_Forall_insert_2; [|exact H].
  unfold Streaming.aligned. cbn. rewrite length_replicate. reflexivity.
Qed.

Lemma prefill_aligned (id : string) (p : @Streaming.payload Token)
    (cache : gmap string sequence_state) :
  cache_aligned cache ->
  cache_aligned (fst (Streaming.prefill forward_step is_stop id p cache)).
Proof.
  intros H. unfold Streaming.prefill.
  pose proof (register_aligned id p cache H) as Hr.
  destruct (Streaming.register id p cache) as [cache' [e|]]; cbn [fst] in *.
  - exact Hr.
  - apply run_prefill_aligned, Hr.
Qed.

Lemma evict_aligned (cache : gmap string sequence_state) :
  cache_aligned cache -> cache_aligned (Streaming.evict cache).
Proof.
  intros H id s Hs. unfold Streaming.evict in Hs.
  apply map_lookup_filter_Some_1_1 in Hs. exact (H id s Hs).
Qed.

Lemma decode_aligned (batch : list string)
    (cache : gmap string sequence_state) :
  cache_aligned cache ->
  cache_aligned
    (fst (Streaming.decode pad_token forward_step is_stop detokenize batch cache)).
Proof.
  intros H. unfold Streaming.decode.
  set (known := omap _ batch).
  assert (Forall (fun q => Streaming.aligned q.2) known) as Hknown.
  { apply Forall_forall. intros [id s] Hin.
    apply list_elem_of_omap in Hin as (x & _ & Hx).
    destruct (cache !! x) as [s0|] eqn:E; [|discriminate].
    injection Hx as <- <-. exact (H x s0 E). }
  generalize (Streaming.target_length known). intros target.
  destruct (mapM _ _) as [stepped|] eqn:Hm; [|exact H].
  cbn [fst]. apply mapM_Some_1 in Hm.
  clearbody known. revert stepped Hm.
  induction Hknown as [|[id s] known Hs _ IH]; intros stepped Hm.
  - apply Forall2_nil_inv_l in Hm as ->. exact H.
  - cbn [map] in Hm. apply Forall2_cons_inv_l in Hm as (y & stepped' & Hy & Hm & ->).
    destruct (Streaming.advance forward_step is_stop
                (Streaming.realign pad_token target s))
      as [[tok s']|] eqn:Ha; [|discriminate].
    injection Hy as <-. cbn [foldr].
    apply map_Forall_insert_2; [|apply IH; exact Hm].
    apply (advance_aligned _ _ tok (realign_aligned target s Hs) Ha).
Qed.

(** C2. Every operation of the engine, prefill from a payload, prefill
    of a cached sequence, decode of a batch and eviction, keeps context
    and mask of every cached sequence at the same length: a cache in
    which they agree stays so after any sequence of operations. *)
Theorem context_and_mask_aligned
    (cache : gmap string sequence_state)
    (ops : list (@Streaming.operation Token)) :
  map_Forall (fun (_ : string) (s : sequence_state) => Streaming.aligned s)
    cache ->
  map_Forall (fun (_ : string) (s : sequence_state) => Streaming.aligned s)
    (Streaming.run_from pad_token forward_step is_stop detokenize cache ops).
Proof.
  unfold Streaming.run_from. revert cache.
  induction ops as [|o ops IH]; intros cache H; [exact H|].
  cbn [foldl]. apply IH. destruct o; cbn [Streaming.apply].
  - apply prefill_aligned, H.
  - apply run_prefill_aligned, H.
  - apply decode_aligned, H.
  - apply evict_aligned, H.
Qed.

(** The caches reached from the empty one are aligned. *)
Lemma reachable_caches_aligned (ops : list (@Streaming.operation Token)) :
  map_Forall (fun (_ : string) (s : sequence_state) => Streaming.aligned s)
    (Streaming.run pad_token forward_step is_stop detokenize ops).
Proof.
  unfold Streaming.run, Streaming.run_from.
  assert (cache_aligned (∅ : gmap string sequence_state)) as H
    by apply map_Forall_empty.
  revert H. generalize (∅ : gmap string sequence_state).
  induction ops as [|o ops IH]; intros cache H; [exact H|].
  cbn [foldl]. apply IH. destruct o; cbn [Streaming.apply].
  - apply prefill_aligned, H.
  - apply run_prefill_aligned, H.
  - apply decode_aligned, H.
  - apply evict_aligned, H.
Qed.

End EngineProperties.

Lemma test_cache_aligned :
  map_Forall (fun (_ : string) s => Streaming.aligned s)
    (test_cache (InternalState := unit) (replicate 5 7%nat)
       (replicate 8 9%nat) 16 16).
Proof.
  unfold test_cache. apply map_Forall_insert_2; [reflexivity|].
  apply map_Forall_insert_2; [reflexivity|]. apply map_Forall_empty.
Defined.

Lemma context_and_mask_aligned_witness :
  map_Forall (fun (_ : string) s => Streaming.aligned s)
    (Streaming.run_from 0%nat sample_forward (fun _ => false) (fun _ => "")
       (test_cache (replicate 5 7%nat) (replicate 8 9%nat) 16 16)
       [Streaming.RunPrefill "id1"; Streaming.RunPrefill "id2";
        Streaming.Decode ["id1"]; Streaming.Decode ["id1"; "id2"];
        Streaming.Decode ["id1"]; Streaming.Decode ["id1"; "id2"];
        Streaming.Evict]).
Proof.
  apply (context_and_mask_aligned 0%nat sample_forward (fun _ => false)
           (fun _ => "") _ _ test_cache_aligned).
Defined.

(** *** The scenario of [test_decoding_stage] *)

Section Scenario.

Context {Token InternalState : Type}.
Variable pad_token : Token.
Variable next_token :
  list Token -> list bool -> option InternalState -> Token.
Variable next_state :
  list Token -> list bool -> option InternalState -> InternalState.
Variable is_stop : Token -> bool.
Variable detokenize : Token -> string.


End Scenario.



(** The rest of the scenario on prompts of five and eight real tokens:
    10 and 10, then 9, then 11 and 11. *)
Example unpadded_scenario :
  let c0 :=
    sample_apply (Streaming.Prefill "B" (Streaming.Payload (replicate 8 1%nat) 16))
      (sample_apply
         (Streaming.Prefill "A" (Streaming.Payload (replicate 5 1%nat) 16)) ∅) in
  let c1 := sample_apply (Streaming.Decode ["A"]) c0 in
  let c2 := sample_apply (Streaming.Decode ["A"; "B"]) c1 in
  let c3 := sample_apply (Streaming.Decode ["A"]) c2 in
  let c4 := sample_apply (Streaming.Decode ["A"; "B"]) c3 in
  [lengths c2 "A"; lengths c2 "B"; lengths c3 "A"; lengths c4 "A";
   lengths c4 "B"]
  = [Some (10, 10); Some (10, 10); Some (9, 9); Some (11, 11);
     Some (11, 11)]%nat.
Proof. vm_compute. reflexivity. Qed.

(** * Further properties of the worker *)

(** Splits the binds of a hypothesis [_ = Ret _], outermost first. *)
Ltac ret_binds H :=
  repeat match type of H with
         | _ ≫= _ = Ret _ =>
             let x := fresh "x" in
             let Hx := fresh "Hx" in
             apply bind_Ret in H as (x & Hx & H)
         end.

Section LoadModelProperties.

Context {Service : Type}.
Variable model_loader_load : Worker.load_args -> result Service.

(** X1. Whatever [load_model] returns is one of its two answers: a service
    with the code 200 and the message of a loaded model, or no service
    with the code 507 and the message of exhausted memory. *)
Theorem load_model_result_shape (req : gmap string pyval)
    (s : option Service) (m : str) (c : Z) :
  Worker.load_model model_loader_load req = Ret (s, m, c) ->
  (exists svc name, s = Some svc /\ m = "loaded model " +:+ name /\ c = 200) \/
  (s = None /\ m = "System out of memory" /\ c = 507).
Proof.
  unfold Worker.load_model.
  destruct (Worker.load_model_try model_loader_load req) as [[svc name]|e].
  - intros [= <- <- <-]. left. eauto.
  - destruct e; try discriminate. intros [= <- <- <-]. right. auto.
Qed.

(** X2. A load that succeeds had the three keys [modelPath], [modelName] and
    [handler] in its request, the first two as [bytes] in well-formed
    UTF-8, and its message names the decoded model name. *)
Theorem load_model_required_fields (req : gmap string pyval)
    (svc : Service) (m : str) (c : Z) :
  Worker.load_model model_loader_load req = Ret (Some svc, m, c) ->
  exists path name h,
    req !! "modelPath" = Some (PyBytes path) /\ utf8_valid path = true /\
    req !! "modelName" = Some (PyBytes name) /\ utf8_valid name = true /\
    req !! "handler" = Some h /\
    m = "loaded model " +:+ string_of_list_byte name.
Proof.
  unfold Worker.load_model.
  destruct (Worker.load_model_try model_loader_load req) as [[svc' name]|e] eqn:Ht.
  2:{ destruct e; discriminate. }
  intros [= -> <- <-]. unfold Worker.load_model_try, getitem in Ht.
  destruct (req !! "modelPath") as [vp|]; [|discriminate].
  cbn [mbind result_bind] in Ht.
  destruct vp as [| | |path|]; try discriminate. cbn [decode_utf8] in Ht.
  destruct (utf8_valid path) eqn:Hp; [|discriminate].
  destruct (req !! "modelName") as [vn|]; [|discriminate].
  cbn [mbind result_bind] in Ht.
  destruct vn as [| | |name'|]; try discriminate. cbn [decode_utf8] in Ht.
  destruct (utf8_valid name') eqn:Hn; [|discriminate].
  destruct (req !! "handler") as [h|]; [|discriminate].
  exists path, name', h.
  cbn [mbind result_bind] in Ht. ret_binds Ht. injection Ht as _ <-.
  repeat split; assumption || reflexivity.
Qed.

(** The answer 507 comes from a [MemoryError] in the [try] block. *)
Lemma load_model_507_from_memory_error (req : gmap string pyval) :
  Worker.load_model model_loader_load req
    = Ret (None, "System out of memory", 507) ->
  Worker.load_model_try model_loader_load req = Raise MemoryError.
Proof.
  unfold Worker.load_model.
  destruct (Worker.load_model_try model_loader_load req) as [[svc name]|e];
    [discriminate|].
  destruct e; try discriminate. reflexivity.
Qed.

(** X3. The request is read completely before the loader runs, and the
    loader is the only thing its outcome depends on: [load_model] with
    any loader is [load_model] with the loader that hands back its
    arguments, followed by one call of the loader on these arguments. *)
Theorem load_model_try_factors (req : gmap string pyval) :
  Worker.load_model_try model_loader_load req
  = Worker.load_model_try Ret req
      ≫= fun an => model_loader_load an.1 ≫= fun svc => Ret (svc, an.2).
Proof.
  unfold Worker.load_model_try.
  repeat match goal with
         | |- ?m ≫= _ = _ =>
             destruct m; cbn [mbind result_bind fst snd]; [|reflexivity]
         end.
  reflexivity.
Qed.

(** X4. The arguments the loader is called with: the decoded name, an
    envelope that is never the empty string, a device and a batch size
    exactly when the request has the keys, the pixel limit switched on
    unless the request says otherwise, and a handler exactly when the
    [handler] field is not empty. *)
Theorem loader_arguments (req : gmap string pyval)
    (a : Worker.load_args) (name : str) :
  Worker.load_model_try Ret req = Ret (a, name) ->
  Worker.model_name a = name /\
  Worker.envelope a <> Some "" /\
  (req !! "envelope" = None -> Worker.envelope a = None) /\
  (req !! "gpu" = None <-> Worker.gpu a = None) /\
  (req !! "batchSize" = None <-> Worker.batch_size a = None) /\
  (req !! "limitMaxImagePixels" = None ->
   Worker.limit_max_image_pixels a = true) /\
  (Worker.handler a = None <->
   exists h, req !! "handler" = Some h /\ truthy h = false).
Proof.
  intros H. unfold Worker.load_model_try in H. ret_binds H.
  injection H as <- <-. injection Hx7 as <-. cbn.
  unfold Worker.optional_field, contains, getitem in *.
  split; [reflexivity|].
  split; [destruct x3 as [[|]|]; discriminate|].
  split.
  { intros He. rewrite He in Hx3. injection Hx3 as <-. reflexivity. }
  split.
  { destruct (req !! "gpu") as [v|].
    - cbn in Hx5. destruct (py_int v); [|discriminate].
      injection Hx5 as <-. split; discriminate.
    - injection Hx5 as <-. split; reflexivity. }
  split.
  { destruct (req !! "batchSize") as [v|].
    - cbn in Hx4. destruct (py_int v); [|discriminate].
      injection Hx4 as <-. split; discriminate.
    - injection Hx4 as <-. split; reflexivity. }
  split.
  { intros Hl. rewrite Hl in Hx6. injection Hx6 as <-. reflexivity. }
  destruct (req !! "handler") as [h|]; [|discriminate].
  injection Hx1 as <-. destruct (truthy h) eqn:Ht.
  - cbn in Hx2. destruct (decode_utf8 h); [|discriminate].
    injection Hx2 as <-.
    split; [discriminate|]. intros (h' & [= <-] & Hf). congruence.
  - injection Hx2 as <-. split; [eauto|reflexivity].
Qed.

End LoadModelProperties.

Section ConnectionProperties.

Context {Service Payload : Type}.
Variable model_loader_load : Worker.load_args -> result Service.
Variable predict : Service -> Worker.message Payload -> result (list byte).
Variable create_load_model_response : Z -> str -> list byte.

(** X5. Whenever the loop goes on to the next frame a service is loaded and
    exactly one response was written: a predict command keeps the
    service it found, a load command installs the one it loaded. *)
Theorem continuing_needs_a_service (service s' : option Service)
    (cmd : list byte) (msg : Worker.message Payload)
    (sent : list (list byte)) :
  Worker.dispatch model_loader_load predict create_load_model_response
    service cmd msg = (sent, Ret s') ->
  is_Some s' /\ length sent = 1%nat /\
  (cmd = Worker.cmd_I /\ s' = service \/ cmd = Worker.cmd_L).
Proof.
  unfold Worker.dispatch. case_decide as HI.
  - destruct service as [svc|]; [|discriminate].
    destruct (predict svc msg); [|discriminate].
    intros [= <- <-]. eauto.
  - case_decide as HL; [|discriminate].
    destruct msg as [fields|]; [|discriminate].
    destruct (Worker.load_model model_loader_load fields)
      as [[[sv result] code]|] eqn:Hl; [|discriminate].
    destruct (Z.eqb_spec code 200) as [->|]; [|discriminate].
    intros [= <- <-].
    apply load_model_result_shape in Hl
      as [(svc & name & -> & _)|(_ & _ & [=])].
    eauto.
Qed.

(** X6. An exception that follows a written response is the [RuntimeError]
    of a load that ran out of memory; every other exception of an
    iteration is raised with nothing written. *)
Theorem raising_after_a_response (service : option Service)
    (cmd : list byte) (msg : Worker.message Payload)
    (sent : list (list byte)) (e : exn) :
  Worker.dispatch model_loader_load predict create_load_model_response
    service cmd msg = (sent, Raise e) ->
  sent = [] \/
  exists fields,
    cmd = Worker.cmd_L /\ msg = Worker.LoadRequest fields /\
    Worker.load_model_try model_loader_load fields = Raise MemoryError /\
    sent = [create_load_model_response 507 "System out of memory"] /\
    e = RuntimeError (py_str 507 +:+ " - " +:+ "System out of memory").
Proof.
  unfold Worker.dispatch. case_decide as HI.
  - destruct service as [svc|]; [|intros [= <- _]; auto].
    destruct (predict svc msg); [discriminate|]. intros [= <- _]. auto.
  - case_decide as HL; [|intros [= <- _]; auto].
    destruct msg as [fields|]; [|intros [= <- _]; auto].
    destruct (Worker.load_model model_loader_load fields)
      as [[[sv result] code]|] eqn:Hl; [|intros [= <- _]; auto].
    destruct (Z.eqb_spec code 200) as [->|Hc]; [discriminate|].
    intros [= <- <-]. right. exists fields.
    pose proof Hl as Hs.
    apply load_model_result_shape in Hs
      as [(svc & name & _ & _ & ->)|(-> & -> & ->)]; [contradiction|].
    apply load_model_507_from_memory_error in Hl. auto.
Qed.

(** X7. A frame whose tag is neither [I] nor [L] raises [ValueError] with
    nothing written, whatever service is loaded, and the frames behind
    it are never read. *)
Theorem unknown_command_raises (service : option Service)
    (cmd : list byte) (msg : Worker.message Payload)
    (rest : list (list byte * Worker.message Payload)) :
  cmd <> Worker.cmd_I -> cmd <> Worker.cmd_L ->
  Worker.handle_connection_loop model_loader_load predict
    create_load_model_response service ((cmd, msg) :: rest)
  = ([Worker.Recv cmd msg],
     Worker.Raised (ValueError "Received unknown command")).
Proof.
  intros HI HL. cbn [Worker.handle_connection_loop].
  unfold Worker.dispatch. rewrite !decide_False by assumption. reflexivity.
Qed.

(** X8. How the loop ends. When the peer has nothing more to send, every
    frame was read and every one answered; when an exception ends it,
    at least one frame was read and at most the last one read is left
    without a response. *)
Theorem loop_ending (service : option Service)
    (frames : list (list byte * Worker.message Payload)) :
  let r := Worker.handle_connection_loop model_loader_load predict
             create_load_model_response service frames in
  match snd r with
  | Worker.NoMoreFrames =>
      Worker.requests (fst r) = frames /\
      length (Worker.responses (fst r)) = length frames
  | Worker.Raised _ =>
      Worker.requests (fst r) <> [] /\
      (length (Worker.requests (fst r))
       <= length (Worker.responses (fst r)) + 1)%nat
  end.
Proof.
  cbv zeta. revert service.
  induction frames as [|[cmd msg] rest IH]; intros service.
  - simpl. auto.
  - cbn [Worker.handle_connection_loop].
    destruct (dispatch_shape model_loader_load predict
                create_load_model_response service cmd msg)
      as [[e He]|(resp & next & He)]; rewrite He.
    + simpl. split; [discriminate|lia].
    + destruct next as [service'|e].
      * specialize (IH service').
        destruct (Worker.handle_connection_loop _ _ _ service' rest)
          as [tr en].
        simpl in IH |- *. destruct en.
        -- destruct IH as [_ IH]. split; [discriminate|lia].
        -- destruct IH as [-> ->]. auto.
      * simpl. split; [discriminate|lia].
Qed.

End ConnectionProperties.

Section ConstructorProperties.

Variable metrics_cache : result unit.
Variable WORLD_RANK : Z.

(** A separator that does not occur splits nothing. *)
Lemma split_last_absent (sep : ascii) (l : list ascii) :
  sep ∉ l -> split_last sep l = None.
Proof.
  induction l as [|c l IH]; intros H; [reflexivity|].
  apply not_elem_of_cons in H as [Hc Hl]. cbn [split_last].
  rewrite (IH Hl). destruct (Ascii.eqb_spec c sep); [congruence|reflexivity].
Qed.

(** What a constructor call on a unix socket that returns a worker has
    done: the metrics cache came up, the worker holds the unix type and
    the port -1, and the file system lost the path the worker will bind
    and nothing else. *)
Lemma init_unix_inv (s_name host : option str) (port : option pyval)
    (fs fs' : gset string) (w : Worker.worker) :
  Worker.__init__ metrics_cache WORLD_RANK (Some "unix") s_name host port fs
    = (fs', Ret w) ->
  metrics_cache = Ret tt /\
  Worker.sock_type w = Some "unix" /\ Worker.port w = PyInt (-1) /\
  fs' = fs ∖ {[Worker.sock_name w]}.
Proof.
  unfold Worker.__init__. rewrite decide_True by reflexivity.
  destruct s_name as [s_name|]; [|discriminate].
  destruct (rsplit1 "." s_name) as [|p0 [|p1 [|]]]; try discriminate.
  destruct (int_of_text is_space p1) as [n|]; [|discriminate].
  unfold os_remove, os_path_exists.
  set (new := p0 +:+ "." +:+ py_str (n + WORLD_RANK)). clearbody new.
  destruct (bool_decide (new ∈ fs)) eqn:Hin; cbv beta iota zeta.
  - destruct metrics_cache as [[]|]; cbn; [|discriminate].
    intros [= <- <-]. cbn. auto.
  - rewrite Hin. destruct metrics_cache as [[]|]; cbn; [|discriminate].
    intros [= <- <-]. cbn. repeat (split; [reflexivity|]).
    apply bool_decide_eq_false in Hin.
    apply set_eq. intros p. rewrite elem_of_difference, elem_of_singleton.
    split; [|tauto]. intros Hp. split; [assumption|]. congruence.
Qed.

(** X10. Unless a unix socket comes with a name or a tcp socket with a port,
    the constructor raises [ValueError], before it touches the file
    system or the metrics cache. *)
Theorem init_rejects_incomplete_arguments (s_type s_name host : option str)
    (port : option pyval) (fs : gset string) :
  ~ (s_type = Some "unix" /\ is_Some s_name) ->
  ~ (s_type = Some "tcp" /\ is_Some port) ->
  exists m,
    Worker.__init__ metrics_cache WORLD_RANK s_type s_name host port fs
    = (fs, Raise (ValueError m)).
Proof.
  intros Hu Ht. unfold Worker.__init__.
  case_decide as H1.
  - destruct s_name; [|eauto]. exfalso. apply Hu. eauto.
  - case_decide as H2; [|eauto].
    destruct port; [|eauto]. exfalso. apply Ht. eauto.
Qed.

(** X11. A unix socket name without a dot makes the constructor raise
    [IndexError]: the name is split at its last dot and the second part
    is read unconditionally. *)
Theorem init_unix_name_without_dot (s_name : str) (host : option str)
    (port : option pyval) (fs : gset string) :
  "."%char ∉ list_ascii_of_string s_name ->
  Worker.__init__ metrics_cache WORLD_RANK (Some "unix") (Some s_name)
    host port fs = (fs, Raise IndexError).
Proof.
  intros H. unfold Worker.__init__. rewrite decide_True by reflexivity.
  unfold rsplit1. rewrite (split_last_absent _ _ H). reflexivity.
Qed.

(** X12. A worker constructed on a unix socket has removed the file at the
    path it is going to bind, and no other: the file system afterwards
    is the one before without that path. *)
Theorem init_removes_the_stale_socket (s_name host : option str)
    (port : option pyval) (fs fs' : gset string) (w : Worker.worker) :
  Worker.__init__ metrics_cache WORLD_RANK (Some "unix") s_name host port fs
    = (fs', Ret w) ->
  fs' = fs ∖ {[Worker.sock_name w]} /\ Worker.sock_type w = Some "unix".
Proof.
  intros H. apply init_unix_inv in H as (_ & Hty & _ & Hfs). auto.
Qed.

End ConstructorProperties.

Section ProcessProperties.

Context {Service Payload : Type}.
Variable model_loader_load : Worker.load_args -> result Service.
Variable predict : Service -> Worker.message Payload -> result (list byte).
Variable create_load_model_response : Z -> str -> list byte.
Variable metrics_cache : result unit.
Variable WORLD_RANK : Z.
Variable BENCHMARK : bool.



(** X14. A worker on anything but a unix socket reads and writes no
    frame, and changes nothing in the file system but the profile file
    it writes at its start when [TS_BENCHMARK] is set: on a tcp socket
    the message printed for an accepted connection adds a string and
    the address pair of the socket, which raises before the first frame
    is read. *)
Theorem only_unix_sockets_are_served (sock_type socket_name host : option str)
    (port : option pyval)
    (conn : option (list (list byte * Worker.message Payload)))
    (fs : gset string) :
  sock_type <> Some "unix" ->
  Worker.main model_loader_load predict create_load_model_response
    metrics_cache WORLD_RANK BENCHMARK sock_type socket_name host port
    conn fs
  = (Worker.dump_stats BENCHMARK fs, []).
Proof.
  intros Hu. unfold Worker.main, Worker.__init__.
  destruct (decide (sock_type = Some "unix")) as [|_]; [contradiction|].
  case_decide as Ht; [|reflexivity].
  destruct port as [p|]; [|reflexivity].
  destruct metrics_cache as [[]|]; cbn [mbind result_bind]; [|reflexivity].
  unfold Worker.run_server. cbn [Worker.sock_type Worker.port].
  destruct (decide (sock_type = Some "unix")) as [|_]; [contradiction|].
  destruct (py_int p); [|reflexivity]. destruct conn; reflexivity.
Qed.

(** X15. Once the constructor has returned a worker on a unix socket the
    bind cannot fail, and the process does on the accepted connection
    exactly what [handle_connection] does on it. The constructor runs
    on the file system as the profile dump at the start left it. *)
Theorem main_serves_the_connection (socket_name host : option str)
    (port : option pyval)
    (frames : list (list byte * Worker.message Payload))
    (fs fs' : gset string) (w : Worker.worker) :
  Worker.__init__ metrics_cache WORLD_RANK (Some "unix") socket_name host
    port (Worker.dump_stats BENCHMARK fs) = (fs', Ret w) ->
  snd (Worker.main model_loader_load predict create_load_model_response
         metrics_cache WORLD_RANK BENCHMARK (Some "unix") socket_name host
         port (Some frames) fs)
  = fst (Worker.handle_connection model_loader_load predict
           create_load_model_response frames).
Proof.
  intros H. unfold Worker.main. rewrite H.
  apply init_unix_inv in H as (_ & Hty & _ & ->).
  unfold Worker.run_server. rewrite decide_True by assumption.
  unfold os_path_exists at 1.
  rewrite bool_decide_eq_false_2
    by (rewrite elem_of_difference, elem_of_singleton; tauto).
  destruct (Worker.handle_connection _ _ _ frames) as [tr e]. reflexivity.
Qed.


End ProcessProperties.

(** ** Socket names in decimal form *)

Lemma chars_app (s1 s2 : string) :
  list_ascii_of_string (s1 +:+ s2)
  = list_ascii_of_string s1 ++ list_ascii_of_string s2.
Proof. induction s1 as [|c s1 IH]; simpl; [reflexivity|]. f_equal. exact IH. Qed.

(** The value of a run of decimal digits read from the left. *)
Definition digits_value (acc : Z) (l : list ascii) : Z :=
  foldl (fun a c => 10 * a + digit_val c) acc l.

Lemma pretty_N_char_digit (d : N) :
  (d < 10)%N ->
  is_digit (pretty_N_char d) = true /\ digit_val (pretty_N_char d) = Z.of_N d.
Proof.
  intros H.
  assert (d = 0 \/ d = 1 \/ d = 2 \/ d = 3 \/ d = 4 \/ d = 5 \/ d = 6 \/
          d = 7 \/ d = 8 \/ d = 9)%N as Hd by lia.
  repeat destruct Hd as [->|Hd]; try subst d; split; reflexivity.
Qed.

Lemma digits_value_app (acc : Z) (l1 l2 : list ascii) :
  digits_value acc (l1 ++ l2) = digits_value (digits_value acc l1) l2.
Proof. unfold digits_value. apply foldl_app. Qed.

(** The digits that [pretty] puts in front of its accumulator. *)
Lemma pretty_N_go_digits (x : N) (s : string) :
  exists p,
    list_ascii_of_string (pretty_N_go x s) = p ++ list_ascii_of_string s /\
    Forall (fun c => is_digit c = true) p /\
    (forall acc, digits_value acc p = acc * 10 ^ Z.of_nat (length p) + Z.of_N x) /\
    ((0 < x)%N -> p <> []).
Proof.
  revert s. induction (N.lt_wf_0 x) as [x _ IH]. intros s.
  assert (x = 0 \/ 0 < x)%N as [->|Hx] by lia.
  - exists []. rewrite pretty_N_go_0. repeat split; try constructor.
    + intros acc. cbn. lia.
    + lia.
  - rewrite pretty_N_go_step by assumption.
    destruct (IH (x `div` 10)%N (N.div_lt x 10 Hx eq_refl)
                (String (pretty_N_char (x `mod` 10)) s))
      as (p & Hp & Hd & Hv & _).
    destruct (pretty_N_char_digit (x `mod` 10)%N) as [Hc Hcv];
      [apply N.mod_lt; lia|].
    exists (p ++ [pretty_N_char (x `mod` 10)]). repeat split.
    + rewrite Hp. cbn. rewrite <- app_assoc. reflexivity.
    + apply Forall_app. split; [assumption|]. constructor; [assumption|constructor].
    + intros acc. rewrite digits_value_app, Hv. cbn. rewrite Hcv.
      rewrite length_app. cbn [length].
      rewrite Nat2Z.inj_add, Z.pow_add_r by lia.
      change (Z.of_nat 1) with 1. rewrite Z.pow_1_r.
      rewrite (N.div_mod x 10) at 3 by lia.
      rewrite N2Z.inj_add, N2Z.inj_mul. change (Z.of_N 10) with 10. lia.
    + intros _ Hnil. destruct p; discriminate.
Qed.

Lemma digits_acc_digits (l : list ascii) (acc : Z) :
  Forall (fun c => is_digit c = true) l ->
  digits_acc acc true l = Some (digits_value acc l).
Proof.
  intros H. revert acc. induction H as [|c l Hc _ IH]; intros acc.
  - reflexivity.
  - cbn [digits_acc]. rewrite Hc. apply IH.
Qed.

Lemma digits_acc_start (c : ascii) (l : list ascii) :
  Forall (fun c => is_digit c = true) (c :: l) ->
  digits_acc 0 false (c :: l) = Some (digits_value 0 (c :: l)).
Proof.
  intros H. pose proof H as H'. apply Forall_cons_1 in H' as [Hc Hl].
  cbn [digits_acc]. rewrite Hc. apply (digits_acc_digits l _ Hl).
Qed.

Lemma digit_not_space (c : ascii) :
  is_digit c = true -> is_space c = false.
Proof.
  unfold is_digit, is_space.
  generalize (N_of_ascii c). intros n H.
  apply andb_prop in H as [H1 H2]. apply N.leb_le in H1, H2.
  repeat (apply orb_false_intro); try apply N.eqb_neq;
    try (apply andb_false_iff; rewrite !N.leb_gt; lia); lia.
Qed.

Lemma skip_kept (sp : ascii -> bool) (l : list ascii) :
  Forall (fun c => sp c = false) l -> skip sp l = l.
Proof. intros [|c l' Hc _]; cbn; [reflexivity|]. rewrite Hc. reflexivity. Qed.

Lemma strip_with_kept (sp : ascii -> bool) (l : list ascii) :
  Forall (fun c => sp c = false) l -> strip_with sp l = l.
Proof.
  intros H. unfold strip_with. rewrite (skip_kept sp l H).
  rewrite skip_kept by (apply Forall_rev; exact H).
  apply rev_involutive.
Qed.

(** The text of an integer: an optional minus sign and its digits. *)
Lemma py_str_chars (z : Z) :
  exists sign p,
    list_ascii_of_string (py_str z) = sign ++ p /\
    (sign = [] /\ 0 <= z \/ sign = ["-"%char] /\ z < 0) /\
    Forall (fun c => is_digit c = true) p /\ p <> [] /\
    digits_value 0 p = Z.abs z.
Proof.
  unfold py_str, pretty, pretty_Z. destruct z as [|x|x].
  - exists [], ["0"%char]. repeat split; try discriminate.
    + left. split; [reflexivity|lia].
    + constructor; [reflexivity|constructor].
  - unfold pretty, pretty_positive, pretty, pretty_N.
    rewrite decide_False by discriminate.
    destruct (pretty_N_go_digits (N.pos x) "") as (p & Hp & Hd & Hv & Hne).
    exists [], p. rewrite Hp, app_nil_r. repeat split; try assumption.
    + left. split; [reflexivity|lia].
    + apply Hne. lia.
    + rewrite Hv. cbn. lia.
  - unfold pretty, pretty_positive, pretty, pretty_N.
    rewrite decide_False by discriminate.
    destruct (pretty_N_go_digits (N.pos x) "") as (p & Hp & Hd & Hv & Hne).
    exists ["-"%char], p. rewrite chars_app, Hp, app_nil_r.
    repeat split; try assumption.
    + right. split; [reflexivity|lia].
    + apply Hne. lia.
    + rewrite Hv. cbn. lia.
Qed.

(** [int(str(z))] is [z]. *)
Lemma int_of_py_str (z : Z) : int_of_text is_space (py_str z) = Ret z.
Proof.
  destruct (py_str_chars z) as (sign & p & Hc & Hs & Hd & Hne & Hv).
  unfold int_of_text. rewrite Hc.
  assert (Forall (fun c => is_space c = false) p) as Hsp.
  { eapply Forall_impl; [exact Hd|]. apply digit_not_space. }
  destruct p as [|c p]; [contradiction|].
  pose proof Hd as Hd'. apply Forall_cons_1 in Hd' as [Hdc _].
  destruct Hs as [[-> Hz]|[-> Hz]].
  - cbn [app]. rewrite strip_with_kept by assumption.
    unfold signed_digits.
    destruct (Ascii.eqb_spec c "-") as [->|_]; [discriminate|].
    destruct (Ascii.eqb_spec c "+") as [->|_]; [discriminate|].
    rewrite (digits_acc_start c p Hd), Hv. f_equal. lia.
  - cbn [app]. rewrite strip_with_kept
      by (constructor; [reflexivity|assumption]).
    unfold signed_digits. cbn [Ascii.eqb Bool.eqb].
    rewrite (digits_acc_start c p Hd), Hv. cbn. f_equal. lia.
Qed.

Lemma py_str_no_dot (z : Z) : "."%char ∉ list_ascii_of_string (py_str z).
Proof.
  destruct (py_str_chars z) as (sign & p & Hc & Hs & Hd & _ & _).
  rewrite Hc. intros Hin. apply elem_of_app in Hin as [Hin|Hin].
  - destruct Hs as [[-> _]|[-> _]].
    + apply elem_of_nil in Hin. exact Hin.
    + apply list_elem_of_singleton in Hin. discriminate.
  - rewrite Forall_forall in Hd. specialize (Hd _ Hin). discriminate.
Qed.

Lemma split_last_app (sep : ascii) (l1 l2 : list ascii) :
  sep ∉ l2 -> split_last sep (l1 ++ sep :: l2) = Some (l1, l2).
Proof.
  intros H. induction l1 as [|c l1 IH].
  - cbn [app split_last]. rewrite (split_last_absent sep l2 H).
    rewrite Ascii.eqb_refl. reflexivity.
  - cbn [app split_last]. rewrite IH. reflexivity.
Qed.

(** A name that ends in a dot and an integer splits at that dot. *)
Lemma rsplit1_decimal_suffix (base : str) (n : Z) :
  rsplit1 "." (base +:+ "." +:+ py_str n) = [base; py_str n].
Proof.
  unfold rsplit1. rewrite chars_app. change (list_ascii_of_string ("." +:+ py_str n))
    with ("."%char :: list_ascii_of_string (py_str n)).
  rewrite split_last_app by apply py_str_no_dot.
  rewrite !string_of_list_ascii_of_string. reflexivity.
Qed.

Section DecimalSocketNames.

Variable metrics_cache : result unit.
Variable WORLD_RANK : Z.

(** The constructor on a unix socket name that ends in a dot and an
    integer. *)
Lemma init_decimal_name (base : str) (n : Z) (host : option str)
    (port : option pyval) (fs : gset string) :
  let new := base +:+ "." +:+ py_str (n + WORLD_RANK) in
  Worker.__init__ metrics_cache WORLD_RANK (Some "unix")
    (Some (base +:+ "." +:+ py_str n)) host port fs
  = (fs ∖ {[new]},
     metrics_cache ≫= fun _ => Ret (Worker.Worker (Some "unix") new (PyInt (-1)))).
Proof.
  intros new. unfold Worker.__init__. rewrite decide_True by reflexivity.
  rewrite rsplit1_decimal_suffix, int_of_py_str. fold new.
  unfold os_remove, os_path_exists. case_bool_decide as Hin.
  - reflexivity.
  - rewrite bool_decide_eq_false_2 by assumption. f_equal.
    apply set_eq. intros p. rewrite elem_of_difference, elem_of_singleton.
    split; [|tauto]. intros Hp. split; [assumption|]. congruence.
Qed.


(** X13. The worker of rank [r] started on the socket name [base.n] binds
    [base.(n + r)], written in plain decimal: the rank is added to the
    number behind the last dot. *)
Theorem init_adds_the_rank (base : str) (n : Z) (host : option str)
    (port : option pyval) (fs : gset string) :
  metrics_cache = Ret tt ->
  exists w,
    Worker.__init__ metrics_cache WORLD_RANK (Some "unix")
      (Some (base +:+ "." +:+ py_str n)) host port fs
    = (fs ∖ {[Worker.sock_name w]}, Ret w) /\
    Worker.sock_name w = base +:+ "." +:+ py_str (n + WORLD_RANK).
Proof.
  intros Hm.
  exists (Worker.Worker (Some "unix")
            (base +:+ "." +:+ py_str (n + WORLD_RANK)) (PyInt (-1))).
  rewrite init_decimal_name, Hm. split; reflexivity.
Qed.

End DecimalSocketNames.

Section RankZero.

Context {Service Payload : Type}.
Variable model_loader_load : Worker.load_args -> result Service.
Variable predict : Service -> Worker.message Payload -> result (list byte).
Variable create_load_model_response : Z -> str -> list byte.
Variable metrics_cache : result unit.
Variable BENCHMARK : bool.


End RankZero.

(** * Further properties of the cache utilities *)

Section BackendCacheProperties.

Context {CacheClass Client : Type}.
Variable RedisCache : CacheClass.
Variable list_classes_from_module : str -> result (list CacheClass).
Variable client_of : CacheClass -> CacheUtils.yaml -> result Client.

(** X18. The cache class of a module name: [RedisCache] for every name that
    contains "redis" once stripped, without a look at the module, and
    otherwise the class of a module that defines exactly one. Nothing
    else resolves. *)
Theorem cache_definition_resolves (module : CacheUtils.yaml)
    (cache_class : CacheClass) :
  CacheUtils.BackendCache._get_cache_definition RedisCache
    list_classes_from_module module = Ret cache_class <->
  exists name,
    module = CacheUtils.YStr name /\
    (str_contains "redis" (strip name) = true /\ cache_class = RedisCache \/
     str_contains "redis" (strip name) = false /\
     list_classes_from_module (strip name) = Ret [cache_class]).
Proof.
  unfold CacheUtils.BackendCache._get_cache_definition. split.
  - destruct module as [| | |name| |]; try discriminate.
    intros H. exists name. split; [reflexivity|].
    destruct (str_contains "redis" (strip name)).
    + injection H as <-. auto.
    + right. split; [reflexivity|].
      destruct (list_classes_from_module (strip name)) as [[|c [|]]|];
        try discriminate.
      injection H as <-. reflexivity.
  - intros (name & -> & [[-> ->]|[-> ->]]); reflexivity.
Qed.

(** X19. [BackendCache.__init__] returns a client exactly when the
    configuration has a [cache] mapping with a [module] and a [config]
    entry, the module resolves to a cache class, and that class built
    on the configuration yields the client. *)
Theorem backend_cache_init_returns (context : CacheUtils.context)
    (client : Client) :
  CacheUtils.BackendCache.__init__ RedisCache list_classes_from_module
    client_of (Some context) = Ret client <->
  exists d module config cache_class,
    CacheUtils.model_yaml_config context !! "cache" = Some (CacheUtils.YDict d) /\
    d !! "module" = Some module /\ d !! "config" = Some config /\
    CacheUtils.BackendCache._get_cache_definition RedisCache
      list_classes_from_module module = Ret cache_class /\
    client_of cache_class config = Ret client.
Proof.
  unfold CacheUtils.BackendCache.__init__,
    CacheUtils.BackendCache.missing_config_check, contains, getitem.
  destruct context as [ctx]. cbn [CacheUtils.model_yaml_config].
  split.
  - destruct (ctx !! "cache") as [c|]; [|discriminate].
    cbn [negb mbind result_bind].
    destruct c as [| | | | |d]; try discriminate.
    unfold CacheUtils.subscript, getitem.
    destruct (d !! "module") as [m|] eqn:Hm; [|discriminate].
    destruct (d !! "config") as [cfg|] eqn:Hcfg; [|discriminate].
    cbn [mbind result_bind].
    destruct (CacheUtils.BackendCache._get_cache_definition _ _ m)
      as [cls|] eqn:Hc; [|discriminate].
    cbn [mbind result_bind]. intros H. exists d, m, cfg, cls. auto.
  - intros (d & m & cfg & cls & -> & Hm & Hcfg & Hc & Hcl).
    cbn [negb mbind result_bind CacheUtils.subscript]. unfold getitem.
    rewrite Hm, Hcfg. cbn [mbind result_bind]. rewrite Hc. exact Hcl.
Qed.

End BackendCacheProperties.

Section DecoratorProperties.

Context {Handle Attrs Args R : Type}.
Variable redis_wrap : CacheUtils.yaml -> Handle -> result Handle.
Variable func :
  @CacheDecorator.handler Handle Attrs -> Args ->
  @CacheDecorator.handler Handle Attrs * result R.

(** The decorated method leaves the handle and the flag of the handler
    alone. *)
Definition keeps_cache_attributes : Prop :=
  forall self args,
    CacheDecorator.handle (fst (func self args)) = CacheDecorator.handle self /\
    CacheDecorator.cache_initialized (fst (func self args))
      = CacheDecorator.cache_initialized self.

Lemma calls_cons (self : CacheDecorator.handler) (a : Args) (l : list Args) :
  CacheDecorator.calls redis_wrap func self (a :: l)
  = CacheDecorator.calls redis_wrap func
      (fst (CacheDecorator.wrap_func redis_wrap func self a)) l.
Proof. reflexivity. Qed.

Lemma wrapped_handler_keeps_handle (self : CacheDecorator.handler)
    (l : list Args) :
  keeps_cache_attributes ->
  CacheDecorator.cache_initialized self = true ->
  CacheDecorator.handle (CacheDecorator.calls redis_wrap func self l)
    = CacheDecorator.handle self.
Proof.
  intros Hk. revert self. induction l as [|a l IH]; intros self Hi.
  - reflexivity.
  - rewrite calls_cons. unfold CacheDecorator.wrap_func. rewrite Hi.
    cbn [negb]. destruct (Hk self a) as [Hh Hf].
    rewrite IH by congruence. exact Hh.
Qed.

(** X20. However often the wrapped method is called, and whatever raises in
    between, the handle is wrapped at most once: after any series of
    calls it is the handle the handler started with, or that handle
    wrapped once. *)
Theorem handle_wrapped_at_most_once (self : CacheDecorator.handler)
    (l : list Args) :
  keeps_cache_attributes ->
  let h := CacheDecorator.handle (CacheDecorator.calls redis_wrap func self l) in
  h = CacheDecorator.handle self \/
  exists config, redis_wrap config (CacheDecorator.handle self) = Ret h.
Proof.
  intros Hk. cbv zeta. revert self. induction l as [|a l IH]; intros self.
  - left. reflexivity.
  - destruct (CacheDecorator.cache_initialized self) eqn:Hi.
    { left. apply wrapped_handler_keeps_handle; assumption. }
    rewrite calls_cons. unfold CacheDecorator.wrap_func. rewrite Hi.
    cbn [negb]. destruct (Hk self a) as [Hh Hf].
    destruct (func self a) as [self1 [r|e]]; cbn [fst] in Hh, Hf.
    + destruct (getitem _ _ ≫= _) as [config|e]; cbn [fst].
      * destruct (redis_wrap config (CacheDecorator.handle self1))
          as [wrapped|e] eqn:Hw; cbn [fst].
        -- right. exists config.
           rewrite wrapped_handler_keeps_handle by (assumption || reflexivity).
           cbn. rewrite <- Hh. exact Hw.
        -- rewrite <- Hh. apply IH.
      * rewrite <- Hh. apply IH.
    + cbn [fst]. rewrite <- Hh. apply IH.
Qed.

(** The decorated method never brings a [cache] entry into a
    configuration that has none. *)
Definition keeps_cache_unconfigured : Prop :=
  forall self args,
    CacheDecorator.model_yaml_config self !! "cache" = None ->
    CacheDecorator.model_yaml_config (fst (func self args)) !! "cache" = None.

(** X21. On a handler that is not initialised and has no [cache] entry in
    its configuration, no call of the wrapped method ever returns: the
    method runs each time, and where it returns, its result is dropped
    for the [KeyError] of the missing entry. The handle stays unwrapped
    and the handler uninitialised. *)
Theorem unconfigured_cache_never_returns (self : CacheDecorator.handler)
    (l : list Args) (args : Args) :
  keeps_cache_attributes -> keeps_cache_unconfigured ->
  CacheDecorator.cache_initialized self = false ->
  CacheDecorator.model_yaml_config self !! "cache" = None ->
  let later := CacheDecorator.calls redis_wrap func self l in
  snd (CacheDecorator.wrap_func redis_wrap func later args)
    = match snd (func later args) with
      | Ret _ => Raise (KeyError "cache")
      | Raise e => Raise e
      end /\
  CacheDecorator.handle later = CacheDecorator.handle self /\
  CacheDecorator.cache_initialized later = false.
Proof.
  intros Hk Hu. cbv zeta.
  assert (forall s a,
            CacheDecorator.cache_initialized s = false ->
            CacheDecorator.model_yaml_config s !! "cache" = None ->
            CacheDecorator.wrap_func redis_wrap func s a
            = (fst (func s a),
               match snd (func s a) with
               | Ret _ => Raise (KeyError "cache")
               | Raise e => Raise e
               end)) as Hstep.
  { intros s a Hi Hc. unfold CacheDecorator.wrap_func. rewrite Hi. cbn [negb].
    specialize (Hu s a Hc).
    destruct (func s a) as [s1 [r|e]]; cbn [fst snd] in *; [|reflexivity].
    unfold getitem. rewrite Hu. reflexivity. }
  revert self. induction l as [|a l IH]; intros self Hi Hc.
  - change (CacheDecorator.calls redis_wrap func self []) with self.
    rewrite (Hstep self args Hi Hc). auto.
  - rewrite calls_cons, (Hstep self a Hi Hc). cbn [fst].
    destruct (Hk self a) as [Hh Hf].
    destruct (IH (fst (func self a))) as (H1 & H2 & H3);
      [congruence|apply Hu; assumption|].
    rewrite H1, H2, H3. auto.
Qed.

End DecoratorProperties.

(** * The further properties on the sample collaborators *)

Lemma sample_load_full :
  Worker.load_model sample_loader full_request
  = Ret (Some "mnist", "loaded model mnist", 200).
Proof. vm_compute. reflexivity. Defined.

Lemma sample_load_huge :
  Worker.load_model sample_loader huge_request
  = Ret (None, "System out of memory", 507).
Proof. vm_compute. reflexivity. Defined.

Lemma load_model_result_shape_witness :
  (exists svc name,
     Some ("mnist" : str) = Some svc /\
     "loaded model mnist" = "loaded model " +:+ name /\ 200 = 200) \/
  (Some ("mnist" : str) = None /\
   "loaded model mnist" = "System out of memory" /\ 200 = 507).
Proof.
  apply (load_model_result_shape sample_loader full_request
           (Some "mnist") "loaded model mnist" 200 sample_load_full).
Defined.

Lemma load_model_required_fields_witness :
  exists path name h,
    full_request !! "modelPath" = Some (PyBytes path) /\
    utf8_valid path = true /\
    full_request !! "modelName" = Some (PyBytes name) /\
    utf8_valid name = true /\
    full_request !! "handler" = Some h /\
    "loaded model mnist" = "loaded model " +:+ string_of_list_byte name.
Proof.
  apply (load_model_required_fields sample_loader full_request "mnist"
           "loaded model mnist" 200 sample_load_full).
Defined.

Lemma loader_arguments_witness :
  Worker.envelope
    (Worker.LoadArgs "mnist" "/models/mnist" None None None None true)
  <> Some "".
Proof.
  assert (Worker.load_model_try Ret plain_request
          = Ret (Worker.LoadArgs "mnist" "/models/mnist" None None None None true,
                 "mnist")) as H by (vm_compute; reflexivity).
  apply (proj1 (proj2 (loader_arguments plain_request _ _ H))).
Defined.

Lemma continuing_needs_a_service_witness :
  is_Some (Some ("mnist" : str)) /\
  length [sample_response 200 "loaded model mnist"] = 1%nat /\
  (Worker.cmd_L = Worker.cmd_I /\ Some ("mnist" : str) = None \/
   Worker.cmd_L = Worker.cmd_L).
Proof.
  assert (Worker.dispatch sample_loader sample_predict sample_response None
            Worker.cmd_L (Worker.LoadRequest full_request)
          = ([sample_response 200 "loaded model mnist"], Ret (Some "mnist")))
    as H by (vm_compute; reflexivity).
  apply (continuing_needs_a_service sample_loader sample_predict
           sample_response None (Some "mnist") Worker.cmd_L
           (Worker.LoadRequest full_request) _ H).
Defined.

Lemma raising_after_a_response_witness :
  [sample_response 507 "System out of memory"] = [] \/
  exists fields,
    Worker.cmd_L = Worker.cmd_L /\
    Worker.LoadRequest (Payload := list byte) huge_request
      = Worker.LoadRequest fields /\
    Worker.load_model_try sample_loader fields = Raise MemoryError /\
    [sample_response 507 "System out of memory"]
      = [sample_response 507 "System out of memory"] /\
    RuntimeError "507 - System out of memory"
      = RuntimeError (py_str 507 +:+ " - " +:+ "System out of memory").
Proof.
  assert (Worker.dispatch sample_loader sample_predict sample_response None
            Worker.cmd_L (Worker.LoadRequest huge_request)
          = ([sample_response 507 "System out of memory"],
             Raise (RuntimeError "507 - System out of memory")))
    as H by (vm_compute; reflexivity).
  apply (raising_after_a_response sample_loader sample_predict
           sample_response None Worker.cmd_L
           (Worker.LoadRequest huge_request) _ _ H).
Defined.

Lemma unknown_command_raises_witness :
  Worker.handle_connection_loop sample_loader sample_predict sample_response
    (Some "mnist")
    [([x51], Worker.PredictRequest []);
     (Worker.cmd_I, Worker.PredictRequest [x01])]
  = ([Worker.Recv [x51] (Worker.PredictRequest [])],
     Worker.Raised (ValueError "Received unknown command")).
Proof.
  apply (unknown_command_raises sample_loader sample_predict sample_response
           (Some "mnist") [x51] (Worker.PredictRequest [])
           [(Worker.cmd_I, Worker.PredictRequest [x01])]);
    discriminate.
Defined.

Lemma load_failure_stops_the_server_witness :
  snd (Worker.run_server sample_loader sample_predict sample_response
         true
         (Worker.Worker (Some "unix") "/tmp/.ts.sock.9000" (PyInt (-1)))
         (Some [(Worker.cmd_L, Worker.LoadRequest huge_request);
                (Worker.cmd_I, Worker.PredictRequest [x01])]) ∅)
  = ([Worker.Recv Worker.cmd_L (Worker.LoadRequest huge_request);
      Worker.Send (sample_response 507 "System out of memory")],
     Worker.Raised (RuntimeError (py_str 507 +:+ " - " +:+ "System out of memory"))).
Proof.
  apply (load_failure_stops_the_server sample_loader sample_predict
           sample_response true
           (Worker.Worker (Some "unix") "/tmp/.ts.sock.9000" (PyInt (-1)))
           huge_request None "System out of memory" 507
           [(Worker.cmd_I, Worker.PredictRequest [x01])] ∅ eq_refl
           (not_elem_of_empty _) sample_load_huge).
  discriminate.
Defined.

Lemma init_rejects_incomplete_arguments_witness :
  exists m,
    Worker.__init__ (Ret tt) 1 (Some "tcp") None (Some "0.0.0.0") None ∅
    = (∅, Raise (ValueError m)).
Proof.
  apply (init_rejects_incomplete_arguments (Ret tt) 1 (Some "tcp") None
           (Some "0.0.0.0") None ∅).
  - intros [H _]. discriminate H.
  - intros [_ [p H]]. discriminate H.
Defined.

Lemma init_unix_name_without_dot_witness :
  Worker.__init__ (Ret tt) 0 (Some "unix") (Some "/tmp/worker_socket")
    None None ∅ = (∅, Raise IndexError).
Proof.
  apply (init_unix_name_without_dot (Ret tt) 0 "/tmp/worker_socket" None None ∅).
  apply (bool_decide_unpack _). vm_compute. exact I.
Defined.

Lemma sample_init :
  Worker.__init__ (Ret tt) 1 (Some "unix") (Some "/tmp/.ts.sock.9000")
    None None {["/tmp/.ts.sock.9001"]}
  = (∅, Ret (Worker.Worker (Some "unix") "/tmp/.ts.sock.9001" (PyInt (-1)))).
Proof. vm_compute. reflexivity. Defined.

Lemma init_removes_the_stale_socket_witness :
  (∅ : gset string)
  = {["/tmp/.ts.sock.9001"]}
      ∖ {[Worker.sock_name
            (Worker.Worker (Some "unix") "/tmp/.ts.sock.9001" (PyInt (-1)))]} /\
  Worker.sock_type
    (Worker.Worker (Some "unix") "/tmp/.ts.sock.9001" (PyInt (-1)))
  = Some "unix".
Proof.
  apply (init_removes_the_stale_socket (Ret tt) 1 (Some "/tmp/.ts.sock.9000")
           None None {["/tmp/.ts.sock.9001"]} ∅ _ sample_init).
Defined.

Lemma only_unix_sockets_are_served_witness :
  Worker.main sample_loader sample_predict sample_response (Ret tt) 0 true
    (Some "tcp") None (Some "127.0.0.1") (Some (PyInt 9000))
    (Some [(Worker.cmd_L, Worker.LoadRequest full_request)])
    {["/tmp/.ts.sock.9000"]}
  = (Worker.dump_stats true {["/tmp/.ts.sock.9000"]}, []).
Proof.
  apply (only_unix_sockets_are_served sample_loader sample_predict
           sample_response (Ret tt) 0 true (Some "tcp")).
  discriminate.
Defined.

Lemma sample_init_profiled :
  Worker.__init__ (Ret tt) 1 (Some "unix") (Some "/tmp/.ts.sock.9000")
    None None (Worker.dump_stats true {["/tmp/.ts.sock.9001"]})
  = ({["/tmp/tsPythonProfile.prof"]},
     Ret (Worker.Worker (Some "unix") "/tmp/.ts.sock.9001" (PyInt (-1)))).
Proof. vm_compute. reflexivity. Defined.

Lemma main_serves_the_connection_witness :
  snd (Worker.main sample_loader sample_predict sample_response (Ret tt) 1
         true (Some "unix") (Some "/tmp/.ts.sock.9000") None None
         (Some [(Worker.cmd_L, Worker.LoadRequest full_request)])
         {["/tmp/.ts.sock.9001"]})
  = fst (Worker.handle_connection sample_loader sample_predict
           sample_response
           [(Worker.cmd_L, Worker.LoadRequest full_request)]).
Proof.
  apply (main_serves_the_connection sample_loader sample_predict
           sample_response (Ret tt) 1 true (Some "/tmp/.ts.sock.9000")
           None None _ {["/tmp/.ts.sock.9001"]} _ _ sample_init_profiled).
Defined.


Lemma init_adds_the_rank_witness :
  exists w,
    Worker.__init__ (Ret tt) 3 (Some "unix")
      (Some ("/tmp/.ts.sock" +:+ "." +:+ py_str 9000)) None None ∅
    = (∅ ∖ {[Worker.sock_name w]}, Ret w) /\
    Worker.sock_name w = "/tmp/.ts.sock" +:+ "." +:+ py_str (9000 + 3).
Proof.
  apply (init_adds_the_rank (Ret tt) 3 "/tmp/.ts.sock" 9000 None None ∅ eq_refl).
Defined.

(** A wrapper that counts how often it was applied, a method that
    changes nothing, and two handlers, with and without a [cache]
    entry. *)
Definition sample_wrap (config : CacheUtils.yaml) (h : nat) : result nat :=
  Ret (S h).

Definition sample_method (self : @CacheDecorator.handler nat unit)
    (args : unit) : @CacheDecorator.handler nat unit * result unit :=
  (self, Ret tt).

Definition configured_handler : @CacheDecorator.handler nat unit :=
  CacheDecorator.Handler false
    (<["cache" := CacheUtils.YDict (<["config" := CacheUtils.YNone]> ∅)]> ∅)
    0%nat tt.

Definition unconfigured_handler : @CacheDecorator.handler nat unit :=
  CacheDecorator.Handler false ∅ 0%nat tt.

Lemma sample_method_keeps_cache_attributes :
  keeps_cache_attributes sample_method.
Proof. intros self args. split; reflexivity. Defined.

Lemma handle_wrapped_at_most_once_witness :
  let h := CacheDecorator.handle
             (CacheDecorator.calls sample_wrap sample_method
                configured_handler [tt; tt; tt]) in
  h = CacheDecorator.handle configured_handler \/
  exists config,
    sample_wrap config (CacheDecorator.handle configured_handler) = Ret h.
Proof.
  apply (handle_wrapped_at_most_once sample_wrap sample_method
           configured_handler [tt; tt; tt]
           sample_method_keeps_cache_attributes).
Defined.

Lemma unconfigured_cache_never_returns_witness :
  let later := CacheDecorator.calls sample_wrap sample_method
                 unconfigured_handler [tt; tt] in
  snd (CacheDecorator.wrap_func sample_wrap sample_method later tt)
    = match snd (sample_method later tt) with
      | Ret _ => Raise (KeyError "cache")
      | Raise e => Raise e
      end /\
  CacheDecorator.handle later = CacheDecorator.handle unconfigured_handler /\
  CacheDecorator.cache_initialized later = false.
Proof.
  apply (unconfigured_cache_never_returns sample_wrap sample_method
           unconfigured_handler [tt; tt] tt
           sample_method_keeps_cache_attributes).
  - intros self args H. exact H.
  - reflexivity.
  - reflexivity.
Defined.

Example configured_handler_wrapped_once :
  CacheDecorator.handle
    (CacheDecorator.calls sample_wrap sample_method configured_handler
       [tt; tt; tt]) = 1%nat.
Proof. vm_compute. reflexivity. Qed.
